(** * Verification of flask_restless/search.py

    A shallow embedding of the filter-expression-to-query compiler of
    Flask-Restless ([flask_restless/search.py]): the operator table
    [OPERATORS], [_sub_operator], [Filter.from_dictionary],
    [QueryBuilder._create_operation], [QueryBuilder._create_filter],
    [QueryBuilder.create_query] and [search].

    Python exceptions are modelled by the error monad [result]; the
    SQLAlchemy clause objects the code builds are modelled by the syntax
    tree [expr] and the query object by the record [Query].  What the code
    imports from [flask_restless/helpers.py] and what it asks of the mapped
    classes is collected in the record [Schema]. *)

From Stdlib Require Import String Ascii List ZArith Bool Arith Lia.
Import ListNotations.
Open Scope string_scope.

Set Implicit Arguments.
Set Warnings "-register-all".

(** ** Exceptions and the error monad *)

Module Py.

(** [RecursionError] is the result of the bounded recursions below when
    the bound is exhausted, which the recursion equations show does not
    happen. *)
Inductive exn : Type :=
| KeyError
| TypeError
| AttributeError
| ValueError
| UnboundLocalError
| ComparisonToNull
| NoResultFound
| MultipleResultsFound
| RecursionError.

Inductive result (A : Type) : Type :=
| Ok (a : A)
| Raise (e : exn).

Arguments Ok {A} a.
Arguments Raise {A} e.

Definition bind {A B : Type} (c : result A) (k : A -> result B) : result B :=
  match c with
  | Ok a => k a
  | Raise e => Raise e
  end.

Definition is_ok {A : Type} (c : result A) : bool :=
  match c with Ok _ => true | Raise _ => false end.

Section Loops.

Variables A B St : Type.

(** [for x in l: f x], collecting the results; the first exception aborts
    the loop (list comprehensions, and generators consumed in order). *)
Definition for_each (f : A -> result B) : list A -> result (list B) :=
  fix go (l : list A) : result (list B) :=
    match l with
    | [] => Ok []
    | x :: xs => bind (f x) (fun y => bind (go xs) (fun ys => Ok (y :: ys)))
    end.

(** A loop threading an accumulator ([query = query.order_by(...)]). *)
Definition fold_each (f : St -> A -> result St) : list A -> St -> result St :=
  fix go (l : list A) (s : St) : result St :=
    match l with
    | [] => Ok s
    | x :: xs => bind (f s x) (go xs)
    end.

End Loops.

End Py.

Export Py.

Declare Scope py_scope.
Delimit Scope py_scope with py.
Notation "x <- c ;; k" := (bind c (fun x => k))
  (at level 61, c at next level, right associativity) : py_scope.
Notation "' pat <- c ;; k" := (bind c (fun x => match x with pat => k end))
  (at level 61, pat pattern, c at next level, right associativity) : py_scope.
Open Scope py_scope.

(** ** Python strings: [sub in s] and [s.split(sep)] *)

Module Str.

(** [starts_with p s]: [s.startswith(p)]. *)
Fixpoint starts_with (p s : string) : bool :=
  match p, s with
  | EmptyString, _ => true
  | String _ _, EmptyString => false
  | String a p', String b s' => Ascii.eqb a b && starts_with p' s'
  end.

(** [contains sub s]: [sub in s]. *)
Fixpoint contains (sub s : string) : bool :=
  starts_with sub s ||
  match s with
  | EmptyString => false
  | String _ s' => contains sub s'
  end.

(** [split_go sep skip cur s] scans [s] from the left. [cur] is the piece
    read so far; [skip] counts the characters of a separator just
    recognised that are still to be dropped. *)
Fixpoint split_go (sep : string) (skip : nat) (cur s : string)
  : list string :=
  match s with
  | EmptyString => [cur]
  | String c rest =>
      match skip with
      | S k => split_go sep k cur rest
      | O =>
          if starts_with sep s
          then cur :: split_go sep (String.length sep - 1) EmptyString rest
          else split_go sep 0 (cur ++ String c EmptyString) rest
      end
  end.

(** [split sep s]: [s.split(sep)] for a non-empty separator: the pieces
    between the non-overlapping occurrences of [sep], found left to right. *)
Definition split (sep s : string) : list string :=
  split_go sep 0 EmptyString s.

End Str.

(** ** Mapped classes and their attributes *)

(** A mapped class (a SQLAlchemy declarative model) is named by its class
    name. *)
Definition model : Type := string.

(** The classes of class-level attribute that [_sub_operator] tells apart
    with [isinstance].  A class attribute may also be [None] (the
    [__doc__] of a class without a docstring is), which the guard
    [argument is None] of [_create_operation] tells from every other
    object. *)
Inductive attr_class : Type :=
| InstrumentedAttribute
| AssociationProxy
| OtherAttribute
| NoneType.

Record attribute : Type := Attribute {
  attr_owner : model;
  attr_key : string;
  attr_class_of : attr_class
}.

(** ** Python values *)

(** Values decoded from the JSON filter specification.  A [dict] is kept as
    the list of its items. *)
Inductive json : Type :=
| JNull
| JBool (b : bool)
| JInt (z : Z)
| JStr (s : string)
| JList (l : list json)
| JDict (items : list (string * json)).

(** Values that reach the right-hand side of an operator: a decoded JSON
    value, a class attribute (field-to-field comparison) or a date/time
    object made by [string_to_datetime]. *)
Inductive pyval : Type :=
| PJson (j : json)
| PAttr (a : attribute)
| PDatetime (t : Z).

Definition PNone : pyval := PJson JNull.

Module Dict.

Definition t : Type := list (string * json).

(** [k in d] *)
Fixpoint contains (k : string) (d : t) : bool :=
  match d with
  | [] => false
  | (k', _) :: rest => String.eqb k k' || contains k rest
  end.

(** [d.get(k)], [None] when the key is absent. *)
Fixpoint get (d : t) (k : string) : json :=
  match d with
  | [] => JNull
  | (k', v) :: rest => if String.eqb k k' then v else get rest k
  end.

(** [d[k]], [KeyError] when the key is absent. *)
Definition getitem (d : t) (k : string) : result json :=
  if contains k d then Ok (get d k) else Raise KeyError.

Definition keys (d : t) : list string := map fst d.

End Dict.

(** Truth value of a decoded value ([if x:]). *)
Definition truthy (j : json) : bool :=
  match j with
  | JNull => false
  | JBool b => b
  | JInt z => negb (Z.eqb z 0)
  | JStr s => negb (String.eqb s "")
  | JList l => match l with [] => false | _ => true end
  | JDict d => match d with [] => false | _ => true end
  end.

(** [a or b] *)
Definition py_or (a b : json) : json := if truthy a then a else b.

(** [sub in x] for a string [sub]: substring test on a string, membership
    on a list, key test on a dict, [TypeError] on anything else. *)
Definition py_in (sub : string) (x : json) : result bool :=
  match x with
  | JStr s => Ok (Str.contains sub s)
  | JList l =>
      Ok (existsb (fun v => match v with
                            | JStr s => String.eqb s sub
                            | _ => false
                            end) l)
  | JDict d => Ok (Dict.contains sub d)
  | _ => Raise TypeError
  end.

(** [x.split(sep)]: only strings have the method; [None], numbers, lists
    and dicts raise [AttributeError]. *)
Definition py_split (x : json) (sep : string) : result (list json) :=
  match x with
  | JStr s => Ok (map JStr (Str.split sep s))
  | _ => Raise AttributeError
  end.

(** [a, b = parts]: [ValueError] unless there are exactly two parts. *)
Definition unpack2 {A : Type} (parts : list A) : result (A * A) :=
  match parts with
  | [a; b] => Ok (a, b)
  | _ => Raise ValueError
  end.

(** [for x in v]: a list yields its elements, a dict its keys, a string
    its characters; anything else is not iterable. *)
Definition py_iter (v : json) : result (list json) :=
  match v with
  | JList l => Ok l
  | JDict d => Ok (map JStr (Dict.keys d))
  | JStr s => Ok (map (fun c => JStr (String c EmptyString)) (list_ascii_of_string s))
  | _ => Raise TypeError
  end.

(** Nesting depth of a decoded value; it bounds the recursion of the
    parser and of the compiler. *)
Fixpoint depth (j : json) : nat :=
  match j with
  | JList l => S (list_max (map depth l))
  | JDict d => S (list_max (map (fun kv => depth (snd kv)) d))
  | _ => 0
  end.

Definition pyval_depth (v : pyval) : nat :=
  match v with
  | PJson j => depth j
  | _ => 0
  end.

Definition is_none (v : pyval) : bool :=
  match v with
  | PJson JNull => true
  | _ => false
  end.

(** ** SQLAlchemy clause elements

    The clause-building methods that the code calls on a class attribute
    (the comparison operators, [like], [ilike], [in_], [has], [any],
    [asc], [desc]) are constructors of the syntax below.  For [has] and
    [any], whose argument is computed by [_sub_operator], the lookup of
    the method on the attribute is modelled too ([py_method]). *)

Inductive binop : Type :=
| OpEq | OpNe | OpGt | OpLt | OpGe | OpLe | OpLike | OpILike | OpIn.

Inductive expr : Type :=
| IsNull (f : attribute)
| IsNotNull (f : attribute)
| Binary (op : binop) (f : attribute) (a : pyval)
| Not (e : expr)
| Has (f : attribute) (criterion : expr)
| Any (f : attribute) (criterion : expr)
| And (clauses : list expr)
| Or (clauses : list expr).

(** [f == a] and [f != a] on a class attribute: comparison with [None]
    is the null test. *)
Definition sa_eq (f : attribute) (a : pyval) : expr :=
  if is_none a then IsNull f else Binary OpEq f a.

Definition sa_ne (f : attribute) (a : pyval) : expr :=
  if is_none a then IsNotNull f else Binary OpNe f a.

Definition and_ (clauses : list expr) : expr := And clauses.
Definition or_ (clauses : list expr) : expr := Or clauses.

(** [field.asc()] and [field.desc()] *)
Inductive direction : Type :=
| Asc (f : attribute)
| Desc (f : attribute).

(** ** The query object

    The clauses accumulated by the generative methods of
    [sqlalchemy.orm.Query], each list in the order of the calls. *)
Record Query : Type := {
  q_entity : model;
  q_criterion : list expr;
  q_join : list model;
  q_order_by : list direction;
  q_group_by : list attribute
}.

Module QueryMethods.

(** [query.filter(c1, ..., cn)] *)
Definition filter (q : Query) (criterion : list expr) : Query :=
  {| q_entity := q_entity q;
     q_criterion := q_criterion q ++ criterion;
     q_join := q_join q;
     q_order_by := q_order_by q;
     q_group_by := q_group_by q |}.

(** [query.join(target)] *)
Definition join (q : Query) (target : model) : Query :=
  {| q_entity := q_entity q;
     q_criterion := q_criterion q;
     q_join := q_join q ++ [target];
     q_order_by := q_order_by q;
     q_group_by := q_group_by q |}.

(** [query.order_by(c1, ..., cn)] *)
Definition order_by (q : Query) (clauses : list direction) : Query :=
  {| q_entity := q_entity q;
     q_criterion := q_criterion q;
     q_join := q_join q;
     q_order_by := q_order_by q ++ clauses;
     q_group_by := q_group_by q |}.

(** [query.group_by(c1, ..., cn)] *)
Definition group_by (q : Query) (clauses : list attribute) : Query :=
  {| q_entity := q_entity q;
     q_criterion := q_criterion q;
     q_join := q_join q;
     q_order_by := q_order_by q;
     q_group_by := q_group_by q ++ clauses |}.

End QueryMethods.

(** A database session is named by a handle. *)
Definition session : Type := nat.

(** ** What the compiler asks of its collaborators

    [getattr] is attribute lookup on a mapped class ([None] stands for
    [AttributeError]); [hasattr] tells, for an attribute object that is
    neither instrumented nor an association proxy, whether it has the
    named method; [mapper_class_] is the chain
    [attr.property.mapper.class_] on an instrumented attribute.  The
    remaining fields are the functions that [search.py] imports from
    [helpers.py]; they are taken as parameters. *)
Record Schema : Type := {
  getattr : model -> string -> option attribute;
  hasattr : attribute -> string -> bool;
  mapper_class_ : attribute -> result model;
  get_related_association_proxy_model : attribute -> result model;
  get_related_model : model -> string -> option model;
  primary_key_names : model -> list string;
  session_query : session -> model -> Query;
  string_to_datetime : model -> json -> json -> result pyval
}.

(** ** The operator table and [_create_operation] *)

Section Compiler.

Variable sch : Schema.

(** [getattr(model, name)]: the name must be a string. *)
Definition py_getattr (m : model) (name : json) : result attribute :=
  match name with
  | JStr s =>
      match getattr sch m s with
      | Some a => Ok a
      | None => Raise AttributeError
      end
  | _ => Raise TypeError
  end.

(** The Python value of a class attribute: [None] itself when the
    attribute is [None]. *)
Definition attribute_value (a : attribute) : pyval :=
  match attr_class_of a with
  | NoneType => PNone
  | _ => PAttr a
  end.

(** [f.has] and [f.any]: the lookup of the method on the field, which
    Python performs before it evaluates the argument of the call.
    Instrumented attributes and association proxies have both methods;
    [None] has neither; for an object of another class the schema
    tells. *)
Definition py_method (f : attribute) (name : string) : result unit :=
  match attr_class_of f with
  | InstrumentedAttribute | AssociationProxy => Ok tt
  | OtherAttribute =>
      if hasattr sch f name then Ok tt else Raise AttributeError
  | NoneType => Raise AttributeError
  end.

(** The type of [QueryBuilder._create_operation]:
    [(model, fieldname, operator, argument, relation)]. *)
Definition create_operation_t : Type :=
  model -> json -> json -> pyval -> json -> result expr.

(** Reading a local variable that an [if]/[elif]/[else] may have left
    unassigned. *)
Definition local {A : Type} (x : option A) : result A :=
  match x with
  | Some a => Ok a
  | None => Raise UnboundLocalError
  end.

(** The first statement of [_sub_operator]: the class related through
    the field [f], left unassigned ([None]) by the [else: pass] branch. *)
Definition submodel_of (f : attribute) : result (option model) :=
  match attr_class_of f with
  | InstrumentedAttribute => sm <- mapper_class_ sch f ;; Ok (Some sm)
  | AssociationProxy =>
      sm <- get_related_association_proxy_model sch f ;; Ok (Some sm)
  | OtherAttribute | NoneType => (* TODO what to do here? *) Ok None
  end.

(** In [_sub_operator]:
    [relation = None; if '__' in fieldname:
       fieldname, relation = fieldname.split('__')]. *)
Definition split_field (fieldname : json) : result (json * json) :=
  c <- py_in "__" fieldname ;;
  if c then parts <- py_split fieldname "__" ;; unpack2 parts
  else Ok (fieldname, JNull).

(** [_sub_operator(model, argument, fieldname)]; [model] is the field on
    which [has]/[any] is applied.  [create_operation] is the global
    [QueryBuilder._create_operation] that the body calls back. *)
Definition _sub_operator (create_operation : create_operation_t)
  (f : attribute) (argument : pyval) (fieldname : json) : result expr :=
  submodel <- submodel_of f ;;
  match argument with
  | PJson (JDict d) =>
      fieldname <- Dict.getitem d "name" ;;
      operator <- Dict.getitem d "op" ;;
      let argument := Dict.get d "val" in
      '(fieldname, relation) <- split_field fieldname ;;
      submodel <- local submodel ;;
      create_operation submodel fieldname operator (PJson argument) relation
  | _ =>
      (* Support legacy has/any with implicit eq operator *)
      submodel <- local submodel ;;
      g <- py_getattr submodel fieldname ;;
      Ok (sa_eq g argument)
  end.

(** The lambdas of [OPERATORS], by number of parameters. *)
Inductive opfunc : Type :=
| Lambda1 (body : attribute -> expr)
| Lambda2 (body : attribute -> pyval -> expr)
| Lambda3 (body : create_operation_t -> attribute -> pyval -> json ->
                  result expr).

Definition OPERATORS : list (string * opfunc) :=
  [ (* Operators which accept a single argument. *)
    ("is_null", Lambda1 (fun f => sa_eq f PNone));
    ("is_not_null", Lambda1 (fun f => sa_ne f PNone));
    (* Operators which accept two arguments. *)
    ("==", Lambda2 (fun f a => sa_eq f a));
    ("eq", Lambda2 (fun f a => sa_eq f a));
    ("equals", Lambda2 (fun f a => sa_eq f a));
    ("equal_to", Lambda2 (fun f a => sa_eq f a));
    ("!=", Lambda2 (fun f a => sa_ne f a));
    ("ne", Lambda2 (fun f a => sa_ne f a));
    ("neq", Lambda2 (fun f a => sa_ne f a));
    ("not_equal_to", Lambda2 (fun f a => sa_ne f a));
    ("does_not_equal", Lambda2 (fun f a => sa_ne f a));
    (">", Lambda2 (fun f a => Binary OpGt f a));
    ("gt", Lambda2 (fun f a => Binary OpGt f a));
    ("<", Lambda2 (fun f a => Binary OpLt f a));
    ("lt", Lambda2 (fun f a => Binary OpLt f a));
    (">=", Lambda2 (fun f a => Binary OpGe f a));
    ("ge", Lambda2 (fun f a => Binary OpGe f a));
    ("gte", Lambda2 (fun f a => Binary OpGe f a));
    ("geq", Lambda2 (fun f a => Binary OpGe f a));
    ("<=", Lambda2 (fun f a => Binary OpLe f a));
    ("le", Lambda2 (fun f a => Binary OpLe f a));
    ("lte", Lambda2 (fun f a => Binary OpLe f a));
    ("leq", Lambda2 (fun f a => Binary OpLe f a));
    ("ilike", Lambda2 (fun f a => Binary OpILike f a));
    ("like", Lambda2 (fun f a => Binary OpLike f a));
    ("in", Lambda2 (fun f a => Binary OpIn f a));
    ("not_in", Lambda2 (fun f a => Not (Binary OpIn f a)));
    (* Operators which accept three arguments. *)
    ("has", Lambda3 (fun create_operation f a fn =>
                       _ <- py_method f "has" ;;
                       c <- _sub_operator create_operation f a fn ;;
                       Ok (Has f c)));
    ("any", Lambda3 (fun create_operation f a fn =>
                       _ <- py_method f "any" ;;
                       c <- _sub_operator create_operation f a fn ;;
                       Ok (Any f c))) ].

Fixpoint assoc (k : string) (table : list (string * opfunc))
  : option opfunc :=
  match table with
  | [] => None
  | (k', v) :: rest => if String.eqb k k' then Some v else assoc k rest
  end.

(** [OPERATORS[operator]]: [KeyError] for a key that is not in the table,
    [TypeError] for an unhashable key (a list or a dict). *)
Definition lookup_operator (operator : json) : result opfunc :=
  match operator with
  | JStr s =>
      match assoc s OPERATORS with
      | Some f => Ok f
      | None => Raise KeyError
      end
  | JList _ | JDict _ => Raise TypeError
  | _ => Raise KeyError
  end.

(** [len(inspect.getargspec(opfunc).args)] *)
Definition numargs (o : opfunc) : nat :=
  match o with
  | Lambda1 _ => 1
  | Lambda2 _ => 2
  | Lambda3 _ => 3
  end.

(** Calling a lambda with one, two or three positional arguments; a
    wrong number of arguments is a [TypeError]. *)
Definition call1 (o : opfunc) (f : attribute) : result expr :=
  match o with
  | Lambda1 body => Ok (body f)
  | _ => Raise TypeError
  end.

Definition call2 (o : opfunc) (f : attribute) (a : pyval) : result expr :=
  match o with
  | Lambda2 body => Ok (body f a)
  | _ => Raise TypeError
  end.

Definition call3 (create_operation : create_operation_t) (o : opfunc)
  (f : attribute) (a : pyval) (fn : json) : result expr :=
  match o with
  | Lambda3 body => body create_operation f a fn
  | _ => Raise TypeError
  end.

(** The body of [QueryBuilder._create_operation], with the recursive
    reference to itself (through [OPERATORS] and [_sub_operator]) as the
    parameter [self]. *)
Definition _create_operation_body (self : create_operation_t)
  : create_operation_t :=
  fun model fieldname operator argument relation =>
    (* raises KeyError if operator not in OPERATORS *)
    opfunc <- lookup_operator operator ;;
    let numargs := numargs opfunc in
    (* raises AttributeError if `fieldname` or `relation` does not exist *)
    field <- py_getattr model (py_or relation fieldname) ;;
    if Nat.eqb numargs 1 then call1 opfunc field
    else if is_none argument then Raise ComparisonToNull
    else if Nat.eqb numargs 2 then call2 opfunc field argument
    else call3 self opfunc field argument fieldname.

(** The recursion descends into the ['val'] of a dictionary argument, so
    it is bounded by the nesting depth of the argument. *)
Fixpoint _create_operation_n (n : nat) : create_operation_t :=
  match n with
  | O => fun _ _ _ _ _ => Raise RecursionError
  | S n' => _create_operation_body (_create_operation_n n')
  end.

Definition _create_operation : create_operation_t :=
  fun model fieldname operator argument relation =>
    _create_operation_n (S (pyval_depth argument))
      model fieldname operator argument relation.

(** ** The filter tree *)

(** [Filter(fieldname, operator, argument, otherfield)] and its two
    junction subclasses. *)
Inductive Filter : Type :=
| MkFilter (fieldname operator : json) (argument : pyval) (otherfield : json)
| ConjunctionFilter (subfilters : list Filter)
| DisjunctionFilter (subfilters : list Filter).

(** [x.get(key)]: only a dict has the method. *)
Definition py_get (x : json) (key : string) : result json :=
  match x with
  | JDict d => Ok (Dict.get d key)
  | _ => Raise AttributeError
  end.

(** The body of [Filter.from_dictionary], with the recursive reference
    [from_dict] as the parameter [self].  The source tests
    ['or' not in dictionary and 'and' not in dictionary] first and then
    ['or' in dictionary] and ['and' in dictionary]; the tests are
    evaluated here once, in the same order. *)
Definition from_dictionary_body (self : model -> json -> result Filter)
  (model : model) (dictionary : json) : result Filter :=
  in_or <- py_in "or" dictionary ;;
  if in_or then
    subfilters <- py_get dictionary "or" ;;
    items <- py_iter subfilters ;;
    subs <- for_each (self model) items ;;
    Ok (DisjunctionFilter subs)
  else
    in_and <- py_in "and" dictionary ;;
    if in_and then
      subfilters <- py_get dictionary "and" ;;
      items <- py_iter subfilters ;;
      subs <- for_each (self model) items ;;
      Ok (ConjunctionFilter subs)
    else
      fieldname <- py_get dictionary "name" ;;
      operator <- py_get dictionary "op" ;;
      otherfield <- py_get dictionary "field" ;;
      argument <- py_get dictionary "val" ;;
      (* Need to deal with the special case of converting dates. *)
      argument <- string_to_datetime sch model fieldname argument ;;
      Ok (MkFilter fieldname operator argument otherfield).

Fixpoint from_dictionary_n (n : nat) : model -> json -> result Filter :=
  match n with
  | O => fun _ _ => Raise RecursionError
  | S n' => from_dictionary_body (from_dictionary_n n')
  end.

Definition from_dictionary (model : model) (dictionary : json)
  : result Filter :=
  from_dictionary_n (S (depth dictionary)) model dictionary.

(** In [_create_filter]:
    [relation = None; if '__' in fname:
       relation, fname = fname.split('__')]. *)
Definition split_relation (fname : json) : result (json * json) :=
  c <- py_in "__" fname ;;
  if c then parts <- py_split fname "__" ;; unpack2 parts
  else Ok (JNull, fname).

(** [QueryBuilder._create_filter(model, filt)] *)
Fixpoint _create_filter (model : model) (filt : Filter) : result expr :=
  match filt with
  | MkFilter fieldname operator argument otherfield =>
      let fname := fieldname in
      let val := argument in
      (* get the relationship from the field name, if it exists *)
      '(relation, fname) <- split_relation fname ;;
      (* get the other field to which to compare, if it exists *)
      val <- (if truthy otherfield
              then a <- py_getattr model otherfield ;;
                   Ok (attribute_value a)
              else Ok val) ;;
      _create_operation model fname operator val relation
  | ConjunctionFilter subfilters =>
      clauses <- for_each (_create_filter model) subfilters ;;
      Ok (and_ clauses)
  | DisjunctionFilter subfilters =>
      clauses <- for_each (_create_filter model) subfilters ;;
      Ok (or_ clauses)
  end.

(** Parsing then compiling one filter object, as [create_query] does for
    each element of [filters]. *)
Definition compile_filter (model : model) (dictionary : json)
  : result expr :=
  filt <- from_dictionary model dictionary ;;
  _create_filter model filt.

(** ** [create_query] *)

(** [getattr(model, name)] for a name that is a string. *)
Definition getattr_str (m : model) (name : string) : result attribute :=
  match getattr sch m name with
  | Some a => Ok a
  | None => Raise AttributeError
  end.

(** [getattr(relation_model, name)] where [relation_model] is what
    [get_related_model] returned, possibly [None]. *)
Definition getattr_related (relation_model : option model) (name : string)
  : result (model * attribute) :=
  match relation_model with
  | Some rm => a <- getattr_str rm name ;; Ok (rm, a)
  | None => Raise AttributeError
  end.

(** One iteration of [for (symbol, field_name) in sort]. *)
Definition order_step (model : model) (query : Query)
  (item : string * string) : result Query :=
  let '(symbol, field_name) := item in
  let direction := if String.eqb symbol "+" then Asc else Desc in
  if Str.contains "." field_name then
    '(field_name, field_name_in_relation) <-
      unpack2 (Str.split "." field_name) ;;
    let relation_model := get_related_model sch model field_name in
    '(relation_model, field) <-
      getattr_related relation_model field_name_in_relation ;;
    let query := QueryMethods.join query relation_model in
    Ok (QueryMethods.order_by query [direction field])
  else
    field <- getattr_str model field_name ;;
    Ok (QueryMethods.order_by query [direction field]).

(** One iteration of [for field_name in group_by]. *)
Definition group_step (model : model) (query : Query) (field_name : string)
  : result Query :=
  if Str.contains "." field_name then
    '(field_name, field_name_in_relation) <-
      unpack2 (Str.split "." field_name) ;;
    let relation_model := get_related_model sch model field_name in
    '(relation_model, field) <-
      getattr_related relation_model field_name_in_relation ;;
    let query := QueryMethods.join query relation_model in
    Ok (QueryMethods.group_by query [field])
  else
    field <- getattr_str model field_name ;;
    Ok (QueryMethods.group_by query [field]).

(** Truth value of an optional list argument ([if sort:]). *)
Definition nonempty {A : Type} (x : option (list A)) : bool :=
  match x with
  | Some (_ :: _) => true
  | _ => false
  end.

Definition items {A : Type} (x : option (list A)) : list A :=
  match x with
  | Some l => l
  | None => []
  end.

(** [QueryBuilder.create_query(session, model, filters, sort, group_by,
    _ignore_order_by)].  Iterating over the default [filters=None] is a
    [TypeError]. *)
Definition create_query (session : session) (model : model)
  (filters : option (list json)) (sort : option (list (string * string)))
  (group_by : option (list string)) (_ignore_order_by : bool)
  : result Query :=
  let query := session_query sch session model in
  (* Filter the query. *)
  filters <- match filters with
             | Some l => for_each (from_dictionary model) l
             | None => Raise TypeError
             end ;;
  (* This function call may raise an exception. *)
  filters <- for_each (_create_filter model) filters ;;
  let query := QueryMethods.filter query filters in
  (* Order the query. If no order field is specified, order by primary
     key. *)
  query <-
    (if negb _ignore_order_by then
       if nonempty sort then
         fold_each (order_step model) (items sort) query
       else
         let pks := primary_key_names sch model in
         pk_order <- for_each (fun field => f <- getattr_str model field ;;
                                            Ok (Asc f)) pks ;;
         Ok (QueryMethods.order_by query pk_order)
     else Ok query) ;;
  (* Group the query. *)
  query <-
    (if nonempty group_by then
       fold_each (group_step model) (items group_by) query
     else Ok query) ;;
  Ok query.

End Compiler.

(** ** [search] *)

Section Search.

Variable sch : Schema.

(** The rows that the data-access layer returns for a composed query, in
    query order. *)
Variable entity : Type.
Variable fetch : Query -> list entity.

(** [query.one()] *)
Definition one (q : Query) : result entity :=
  match fetch q with
  | [] => Raise NoResultFound
  | [x] => Ok x
  | _ :: _ :: _ => Raise MultipleResultsFound
  end.

(** What [search] returns: one instance, or the query itself, to be
    iterated by the caller. *)
Inductive search_result : Type :=
| Instance (x : entity)
| Results (q : Query).

(** [search(session, model, filters, sort, group_by, single,
    _ignore_order_by)] *)
Definition search (session : session) (model : model)
  (filters : option (list json)) (sort : option (list (string * string)))
  (group_by : option (list string)) (single : bool)
  (_ignore_order_by : bool) : result search_result :=
  query <- create_query sch session model filters sort group_by
             _ignore_order_by ;;
  if single then
    (* may raise NoResultFound or MultipleResultsFound *)
    x <- one query ;; Ok (Instance x)
  else Ok (Results query).

End Search.

(** ** Matching semantics of clause elements

    SQL predicates are three-valued; a row matches a predicate when the
    predicate evaluates to true on it.  The value of a comparison on a row,
    the null test and the rows related to a row through a relationship
    belong to the database and are parameters. *)

Inductive tv : Type := TT | FF | UU.

Definition tv_and (a b : tv) : tv :=
  match a, b with
  | FF, _ | _, FF => FF
  | TT, TT => TT
  | _, _ => UU
  end.

Definition tv_or (a b : tv) : tv :=
  match a, b with
  | TT, _ | _, TT => TT
  | FF, FF => FF
  | _, _ => UU
  end.

Definition tv_not (a : tv) : tv :=
  match a with
  | TT => FF
  | FF => TT
  | UU => UU
  end.

Definition is_true (a : tv) : bool :=
  match a with
  | TT => true
  | _ => false
  end.

Section Semantics.

Variable entity : Type.
Variable compare : binop -> attribute -> pyval -> entity -> tv.
Variable null : attribute -> entity -> bool.
Variable related : attribute -> entity -> list entity.

Fixpoint eval (e : expr) (x : entity) : tv :=
  match e with
  | IsNull f => if null f x then TT else FF
  | IsNotNull f => if null f x then FF else TT
  | Binary op f a => compare op f a x
  | Not c => tv_not (eval c x)
  | Has f c | Any f c =>
      if existsb (fun y => is_true (eval c y)) (related f x) then TT else FF
  | And clauses => fold_right tv_and TT (map (fun c => eval c x) clauses)
  | Or clauses => fold_right tv_or FF (map (fun c => eval c x) clauses)
  end.

(** The row [x] is matched by the predicate [e]. *)
Definition matches (e : expr) (x : entity) : bool := is_true (eval e x).

(** The WHERE clause of a query: the conjunction of the criteria given to
    [filter]. *)
Definition whereclause (q : Query) : expr := and_ (q_criterion q).

End Semantics.

(** ** The mapped classes of the test suite

    [Person] and [Comment] of [tests/test_filtering.py] (with the
    relationship [author] and its backref [comments]), and [Article],
    [ArticleTag] and [Tag] with the association proxy [tags].  Every
    class inherits [metadata] from the declarative base, an object that
    is neither instrumented nor an association proxy and has no method
    [has] or [any]; no class has a docstring, so [__doc__] is [None]. *)
Module TestModels.

Definition column (owner : model) (key : string) : attribute :=
  Attribute owner key InstrumentedAttribute.

Definition relationship (owner : model) (key : string) : attribute :=
  Attribute owner key InstrumentedAttribute.

Definition columns_of (m : model) : list string :=
  if String.eqb m "Person" then ["id"; "name"; "age"; "birthday"]
  else if String.eqb m "Comment" then ["id"; "content"; "author_id"]
  else if String.eqb m "Article" then ["id"]
  else if String.eqb m "ArticleTag" then ["article_id"; "tag_id"; "id"]
  else if String.eqb m "Tag" then ["id"; "name"]
  else [].

(** Relationship attributes, with the class at the other end. *)
Definition relationships_of (m : model) : list (string * model) :=
  if String.eqb m "Person" then [("comments", "Comment")]
  else if String.eqb m "Comment" then [("author", "Person")]
  else if String.eqb m "Article" then [("articletags", "ArticleTag")]
  else if String.eqb m "ArticleTag" then [("article", "Article"); ("tag", "Tag")]
  else [].

Definition proxies_of (m : model) : list (string * model) :=
  if String.eqb m "Article" then [("tags", "Tag")] else [].

Definition classes : list model :=
  ["Person"; "Comment"; "Article"; "ArticleTag"; "Tag"].

Definition others_of (m : model) : list string :=
  if existsb (String.eqb m) classes then ["metadata"] else [].

Definition nones_of (m : model) : list string :=
  if existsb (String.eqb m) classes then ["__doc__"] else [].

Fixpoint target (key : string) (l : list (string * model)) : option model :=
  match l with
  | [] => None
  | (k, m) :: rest => if String.eqb key k then Some m else target key rest
  end.

Definition mem (key : string) (l : list string) : bool :=
  existsb (String.eqb key) l.

Definition test_getattr (m : model) (key : string) : option attribute :=
  if mem key (columns_of m) then Some (column m key)
  else match target key (relationships_of m) with
       | Some _ => Some (relationship m key)
       | None =>
           match target key (proxies_of m) with
           | Some _ => Some (Attribute m key AssociationProxy)
           | None =>
               if mem key (others_of m)
               then Some (Attribute m key OtherAttribute)
               else if mem key (nones_of m)
               then Some (Attribute m key NoneType)
               else None
           end
       end.

(** [attr.property.mapper.class_]: the property of a relationship has a
    mapper; the [ColumnProperty] of a column has none. *)
Definition test_mapper_class (a : attribute) : result model :=
  match target (attr_key a) (relationships_of (attr_owner a)) with
  | Some m => Ok m
  | None => Raise AttributeError
  end.

Definition test_proxy_model (a : attribute) : result model :=
  match target (attr_key a) (proxies_of (attr_owner a)) with
  | Some m => Ok m
  | None => Raise AttributeError
  end.

Definition test_related_model (m : model) (key : string) : option model :=
  match target key (relationships_of m) with
  | Some r => Some r
  | None => target key (proxies_of m)
  end.

Definition test_primary_keys (m : model) : list string :=
  if String.eqb m "ArticleTag" then ["article_id"; "tag_id"]
  else if mem "id" (columns_of m) then ["id"]
  else [].

Definition empty_query (s : session) (m : model) : Query :=
  {| q_entity := m; q_criterion := []; q_join := [];
     q_order_by := []; q_group_by := [] |}.

(** Coercion: values for [birthday] of [Person] are parsed as dates, the
    empty string becoming [None]; every other value is passed through. *)
Definition test_string_to_datetime (m : model) (fieldname value : json)
  : result pyval :=
  match value with
  | JNull => Ok PNone
  | _ =>
      match fieldname with
      | JStr key =>
          if String.eqb m "Person" && String.eqb key "birthday" then
            match value with
            | JStr "" => Ok PNone
            | JStr "1900-01-02" => Ok (PDatetime (-25566))
            | JStr _ => Raise ValueError
            | _ => Ok (PJson value)
            end
          else Ok (PJson value)
      | _ => Ok (PJson value)
      end
  end.

Definition schema : Schema :=
  {| getattr := test_getattr;
     hasattr := fun _ _ => false;
     mapper_class_ := test_mapper_class;
     get_related_association_proxy_model := test_proxy_model;
     get_related_model := test_related_model;
     primary_key_names := test_primary_keys;
     session_query := empty_query;
     string_to_datetime := test_string_to_datetime |}.

(** A leaf filter object [dict(name=..., op=..., val=...)]. *)
Definition leaf (name op : string) (val : json) : json :=
  JDict [("name", JStr name); ("op", JStr op); ("val", val)].

(** Filter objects of the tests, and some malformed ones. *)
Definition boolean_formula : json :=
  JDict [("or", JList [JDict [("and", JList [leaf "name" "like" (JStr "%u%");
                                              leaf "age" "ge" (JInt 10)])];
                       leaf "name" "eq" (JStr "John")])].

Definition name_like_and_age_ge : json :=
  JDict [("and", JList [leaf "name" "like" (JStr "%u%");
                        leaf "age" "ge" (JInt 10)])].

Definition both_and_or : json :=
  JDict [("and", JList [leaf "age" "ge" (JInt 10)]);
         ("or", JList [leaf "name" "eq" (JStr "John")])].

Definition empty_and : json := JDict [("and", JList [])].

Definition missing_fieldname : json :=
  JDict [("op", JStr "=="); ("val", JStr "foo")].

Definition missing_operator : json :=
  JDict [("name", JStr "age"); ("val", JInt 3)].

(** The query on [ArticleTag] ordered by its two primary keys. *)
Definition article_tags : Query :=
  {| q_entity := "ArticleTag"; q_criterion := []; q_join := [];
     q_order_by := [Asc (column "ArticleTag" "article_id");
                    Asc (column "ArticleTag" "tag_id")];
     q_group_by := [] |}.

(** The query on [Comment] sorted by the name of the author, descending,
    then by [id], and grouped by the [id] of the author. *)
Definition comments_by_author : Query :=
  {| q_entity := "Comment";
     q_criterion := [];
     q_join := ["Person"; "Person"];
     q_order_by := [Desc (column "Person" "name");
                    Asc (column "Comment" "id")];
     q_group_by := [column "Person" "id"] |}.

End TestModels.

(** ** An object of another class with the methods [has] and [any]

    Nothing keeps the attribute of a mapped class that is neither
    instrumented nor an association proxy from offering [has] and
    [any].  [schema] is that of the tests, with one such attribute
    [alias] added to [Person]. *)
Module OtherComparator.

Definition alias : attribute := Attribute "Person" "alias" OtherAttribute.

Definition is_alias (m : model) (key : string) : bool :=
  String.eqb m "Person" && String.eqb key "alias".

Definition schema : Schema :=
  {| getattr := fun m key =>
       if is_alias m key then Some alias
       else getattr TestModels.schema m key;
     hasattr := fun a name =>
       is_alias (attr_owner a) (attr_key a)
       && (String.eqb name "has" || String.eqb name "any");
     mapper_class_ := mapper_class_ TestModels.schema;
     get_related_association_proxy_model :=
       get_related_association_proxy_model TestModels.schema;
     get_related_model := get_related_model TestModels.schema;
     primary_key_names := primary_key_names TestModels.schema;
     session_query := session_query TestModels.schema;
     string_to_datetime := string_to_datetime TestModels.schema |}.

End OtherComparator.


(** [isinstance(argument, dict)] *)
Definition is_dict (v : pyval) : bool :=
  match v with
  | PJson (JDict _) => true
  | _ => false
  end.

(** ** The groups of operator synonyms *)

Definition synonyms : list (list string) :=
  [ ["=="; "eq"; "equals"; "equal_to"];
    ["!="; "ne"; "neq"; "not_equal_to"; "does_not_equal"];
    [">"; "gt"];
    ["<"; "lt"];
    [">="; "ge"; "gte"; "geq"];
    ["<="; "le"; "lte"; "leq"] ].

(** The query [q] after calls to [join], [order_by] and [group_by] that
    add the joins [js], the ordering clauses [os] and the grouping clauses
    [gs]: used to state what the ordering and grouping stages of
    [create_query] do to a query. *)
Definition appended (q : Query) (js : list model) (os : list direction)
  (gs : list attribute) : Query :=
  {| q_entity := q_entity q;
     q_criterion := q_criterion q;
     q_join := q_join q ++ js;
     q_order_by := q_order_by q ++ os;
     q_group_by := q_group_by q ++ gs |}.


(** ['.' in field_name] *)
Definition dotted (field_name : string) : bool := Str.contains "." field_name.

(** The keys of [OPERATORS], by number of parameters of the lambda. *)
Definition unary_operators : list string := ["is_null"; "is_not_null"].

Definition binary_operators : list string :=
  [ "=="; "eq"; "equals"; "equal_to";
    "!="; "ne"; "neq"; "not_equal_to"; "does_not_equal";
    ">"; "gt"; "<"; "lt"; ">="; "ge"; "gte"; "geq";
    "<="; "le"; "lte"; "leq";
    "ilike"; "like"; "in"; "not_in" ].

Definition ternary_operators : list string := ["has"; "any"].

(** The kinds of error of the taxonomy, as the exceptions that the code
    and its collaborators raise for them. *)
Definition taxonomy : list exn :=
  [ KeyError; TypeError; AttributeError; ComparisonToNull; ValueError;
    NoResultFound; MultipleResultsFound ].

(** * Properties *)

(** ** The recursion equations

    [_create_operation] and [from_dictionary] satisfy the recursive
    equations of the source: the bound on the recursion is never
    reached. *)

Section Unfolding.

Variable sch : Schema.

Lemma depth_get (d : Dict.t) (k : string) :
  depth (Dict.get d k) < depth (JDict d).
Proof.
  simpl. apply Nat.lt_succ_r.
  induction d as [|[k' v] d IH]; simpl; [lia|].
  destruct (String.eqb k k'); lia.
Qed.

Lemma depth_in_list (l : list json) (x : json) :
  In x l -> depth x < depth (JList l).
Proof.
  simpl. intros H. apply Nat.lt_succ_r.
  induction l as [|y l IH]; simpl in *; [contradiction|].
  destruct H as [->|H]; [lia|]. specialize (IH H). lia.
Qed.

Lemma for_each_ext_in (A B : Type) (f g : A -> result B) (l : list A) :
  (forall x, In x l -> f x = g x) -> for_each f l = for_each g l.
Proof.
  induction l as [|x l IH]; simpl; intros H; [reflexivity|].
  rewrite (H x) by auto. rewrite IH by auto. reflexivity.
Qed.

(** The three-parameter lambdas of the table are those of [has] and
    [any]. *)
Lemma lookup_operator_lambda3 (operator : json) body :
  lookup_operator sch operator = Ok (Lambda3 body) ->
  (forall self f a fn,
      body self f a fn = (_ <- py_method sch f "has" ;;
                          c <- _sub_operator sch self f a fn ;; Ok (Has f c)))
  \/
  (forall self f a fn,
      body self f a fn = (_ <- py_method sch f "any" ;;
                          c <- _sub_operator sch self f a fn ;; Ok (Any f c))).
Proof.
  destruct operator as [| | |s| |]; simpl; try discriminate.
  repeat match goal with
         | |- context [String.eqb s ?k] => destruct (String.eqb s k)
         end;
    intros H; inversion H; subst; auto.
Qed.

Lemma _sub_operator_ext (self1 self2 : create_operation_t) f argument fn :
  (forall m' fn' op' arg' rel',
      pyval_depth arg' < pyval_depth argument ->
      self1 m' fn' op' arg' rel' = self2 m' fn' op' arg' rel') ->
  _sub_operator sch self1 f argument fn = _sub_operator sch self2 f argument fn.
Proof.
  intros H. unfold _sub_operator.
  destruct (submodel_of sch f) as [submodel|e]; simpl; [|reflexivity].
  destruct argument as [[| | | | |d]| |]; try reflexivity.
  destruct (Dict.getitem d "name") as [name|]; simpl; [|reflexivity].
  destruct (Dict.getitem d "op") as [op|]; simpl; [|reflexivity].
  destruct (split_field name) as [[fn' rel']|]; simpl; [|reflexivity].
  destruct (local submodel) as [sm|]; simpl; [|reflexivity].
  apply H. simpl. apply (depth_get d "val").
Qed.

Lemma _create_operation_body_ext (self1 self2 : create_operation_t)
  m fn op argument rel :
  (forall m' fn' op' arg' rel',
      pyval_depth arg' < pyval_depth argument ->
      self1 m' fn' op' arg' rel' = self2 m' fn' op' arg' rel') ->
  _create_operation_body sch self1 m fn op argument rel =
  _create_operation_body sch self2 m fn op argument rel.
Proof.
  intros H. unfold _create_operation_body.
  destruct (lookup_operator sch op) as [o|] eqn:Ho; simpl; [|reflexivity].
  destruct (py_getattr sch m (py_or rel fn)) as [field|]; simpl;
    [|reflexivity].
  destruct o as [b|b|b]; simpl; try reflexivity.
  destruct (is_none argument); [reflexivity|].
  destruct (lookup_operator_lambda3 _ Ho) as [Hb|Hb]; rewrite !Hb;
    rewrite (@_sub_operator_ext self1 self2 field _ _ H);
    reflexivity.
Qed.

Lemma _create_operation_n_stable (n : nat) :
  forall m fn op argument rel,
    pyval_depth argument < n ->
    _create_operation_n sch n m fn op argument rel =
    _create_operation sch m fn op argument rel.
Proof.
  induction n as [n IH] using lt_wf_ind.
  intros m fn op argument rel Hlt. unfold _create_operation.
  destruct n as [|n]; [lia|]. simpl.
  apply _create_operation_body_ext. intros m' fn' op' arg' rel' Hd.
  rewrite (IH n) by lia.
  rewrite (IH (pyval_depth argument)) by lia. reflexivity.
Qed.

(** [_create_operation] is the function whose body is that of the
    source, calling itself. *)
Lemma _create_operation_eq m fn op argument rel :
  _create_operation sch m fn op argument rel =
  _create_operation_body sch (_create_operation sch) m fn op argument rel.
Proof.
  unfold _create_operation at 1. simpl.
  apply _create_operation_body_ext. intros m' fn' op' arg' rel' Hd.
  apply _create_operation_n_stable. exact Hd.
Qed.

Lemma depth_iter (dictionary subfilters : json) (key : string)
  (l : list json) (x : json) :
  py_get dictionary key = Ok subfilters ->
  py_iter subfilters = Ok l ->
  In x l -> depth x < depth dictionary.
Proof.
  destruct dictionary as [| | | | |d]; simpl; try discriminate.
  intros H; inversion H; subst; clear H.
  pose proof (depth_get d key) as Hd. simpl in Hd.
  destruct (Dict.get d key) as [| | |s|l'|d']; simpl; try discriminate;
    intros H; inversion H; subst; clear H; intros Hin.
  - apply in_map_iff in Hin. destruct Hin as [c [<- _]]. simpl. lia.
  - pose proof (depth_in_list l x Hin) as Hx. simpl in *. lia.
  - apply in_map_iff in Hin. destruct Hin as [c [<- _]]. simpl. lia.
Qed.

Lemma from_dictionary_body_ext (self1 self2 : model -> json -> result Filter)
  m dictionary :
  (forall m' x, depth x < depth dictionary -> self1 m' x = self2 m' x) ->
  from_dictionary_body sch self1 m dictionary =
  from_dictionary_body sch self2 m dictionary.
Proof.
  intros H. unfold from_dictionary_body.
  destruct (py_in "or" dictionary) as [[|]|]; simpl; [| |reflexivity].
  - destruct (py_get dictionary "or") as [subfilters|] eqn:Hg; simpl;
      [|reflexivity].
    destruct (py_iter subfilters) as [l|] eqn:Hi; simpl; [|reflexivity].
    rewrite (for_each_ext_in (self1 m) (self2 m) l); [reflexivity|].
    intros x Hx. apply H. eapply depth_iter; eauto.
  - destruct (py_in "and" dictionary) as [[|]|]; simpl; try reflexivity.
    destruct (py_get dictionary "and") as [subfilters|] eqn:Hg; simpl;
      [|reflexivity].
    destruct (py_iter subfilters) as [l|] eqn:Hi; simpl; [|reflexivity].
    rewrite (for_each_ext_in (self1 m) (self2 m) l); [reflexivity|].
    intros x Hx. apply H. eapply depth_iter; eauto.
Qed.

Lemma from_dictionary_n_stable (n : nat) :
  forall m dictionary,
    depth dictionary < n ->
    from_dictionary_n sch n m dictionary = from_dictionary sch m dictionary.
Proof.
  induction n as [n IH] using lt_wf_ind.
  intros m dictionary Hlt. unfold from_dictionary.
  destruct n as [|n]; [lia|]. simpl.
  apply from_dictionary_body_ext. intros m' x Hd.
  rewrite (IH n) by lia.
  rewrite (IH (depth dictionary)) by lia. reflexivity.
Qed.

(** [from_dictionary] is the function whose body is that of the source,
    calling itself on the sub-filters. *)
Lemma from_dictionary_eq m dictionary :
  from_dictionary sch m dictionary =
  from_dictionary_body sch (from_dictionary sch) m dictionary.
Proof.
  unfold from_dictionary at 1. simpl.
  apply from_dictionary_body_ext. intros m' x Hd.
  apply from_dictionary_n_stable. exact Hd.
Qed.

End Unfolding.

(** ** Leaf filters *)

Section Leaf.

Variable sch : Schema.

(** A leaf filter whose field resolves and which names no other field is
    compiled by the dispatch on the number of parameters of its
    operator. *)
Lemma _create_filter_leaf model fieldname operator argument otherfield
  relation fname o field :
  split_relation fieldname = Ok (relation, fname) ->
  truthy otherfield = false ->
  lookup_operator sch operator = Ok o ->
  py_getattr sch model (py_or relation fname) = Ok field ->
  _create_filter sch model (MkFilter fieldname operator argument otherfield) =
  if Nat.eqb (numargs o) 1 then call1 o field
  else if is_none argument then Raise ComparisonToNull
  else if Nat.eqb (numargs o) 2 then call2 o field argument
  else call3 (_create_operation sch) o field argument fname.
Proof.
  intros Hsplit Hother Hop Hfield.
  cbn [_create_filter]. rewrite Hsplit. cbn [bind]. rewrite Hother.
  cbn [bind]. rewrite _create_operation_eq. unfold _create_operation_body.
  rewrite Hop. cbn [bind]. rewrite Hfield. reflexivity.
Qed.

Lemma synonyms_lookup group op1 op2 :
  In group synonyms -> In op1 group -> In op2 group ->
  lookup_operator sch (JStr op1) = lookup_operator sch (JStr op2) /\
  exists body, lookup_operator sch (JStr op1) = Ok (Lambda2 body).
Proof.
  unfold synonyms. cbn [In]. intros Hg H1 H2.
  repeat (destruct Hg as [<-|Hg]; [|try contradiction]);
    cbn [In] in H1, H2;
    repeat (destruct H1 as [<-|H1]; [|try contradiction]);
    repeat (destruct H2 as [<-|H2]; [|try contradiction]);
    (split; [reflexivity | eexists; reflexivity]).
Qed.

Lemma _create_operation_same_lookup model fieldname op1 op2 argument relation :
  lookup_operator sch op1 = lookup_operator sch op2 ->
  _create_operation sch model fieldname op1 argument relation =
  _create_operation sch model fieldname op2 argument relation.
Proof.
  intros H. rewrite !_create_operation_eq. unfold _create_operation_body.
  rewrite H. reflexivity.
Qed.

(** C3.  Two operator names of the same group of synonyms are both
    two-parameter operators of the table, and a leaf filter compiled with
    one gives the same result (the same predicate, or the same error) as
    with the other, whatever the model, the field and the argument; so
    the two predicates match the same rows of any database. *)
Theorem synonyms_compile_alike group op1 op2 :
  In group synonyms -> In op1 group -> In op2 group ->
  (exists body, lookup_operator sch (JStr op1) = Ok (Lambda2 body)) /\
  forall model fieldname argument otherfield,
    _create_filter sch model (MkFilter fieldname (JStr op1) argument otherfield)
    = _create_filter sch model
        (MkFilter fieldname (JStr op2) argument otherfield) /\
    forall p1 p2,
      _create_filter sch model
        (MkFilter fieldname (JStr op1) argument otherfield) = Ok p1 ->
      _create_filter sch model
        (MkFilter fieldname (JStr op2) argument otherfield) = Ok p2 ->
      forall (entity : Type) compare null related (x : entity),
        matches compare null related p1 x = matches compare null related p2 x.
Proof.
  intros Hg H1 H2.
  destruct (@synonyms_lookup group op1 op2 Hg H1 H2) as [Heq Hbin].
  split; [exact Hbin|]. intros model fieldname argument otherfield.
  assert (E : _create_filter sch model
                (MkFilter fieldname (JStr op1) argument otherfield)
              = _create_filter sch model
                  (MkFilter fieldname (JStr op2) argument otherfield)).
  { cbn [_create_filter].
    destruct (split_relation fieldname) as [[relation fname]|]; cbn [bind];
      [|reflexivity].
    destruct (if truthy otherfield then _ else _) as [val|]; cbn [bind];
      [|reflexivity].
    apply _create_operation_same_lookup. exact Heq. }
  split; [exact E|].
  intros p1 p2 Hp1 Hp2. rewrite E in Hp1. rewrite Hp1 in Hp2.
  inversion Hp2. reflexivity.
Qed.

(** C2.  On a leaf filter whose field resolves on the model and which
    names no other field: with a two-parameter operator (such as [eq] or
    [==]) and the argument [None], compilation raises [ComparisonToNull];
    with [is_null] (resp. [is_not_null]) and no argument, compilation
    succeeds and yields the null test (resp. the non-null test) on the
    field. *)
Theorem comparison_to_null model fieldname otherfield relation fname field :
  split_relation fieldname = Ok (relation, fname) ->
  truthy otherfield = false ->
  py_getattr sch model (py_or relation fname) = Ok field ->
  (forall operator o,
      lookup_operator sch operator = Ok o -> numargs o = 2 ->
      _create_filter sch model (MkFilter fieldname operator PNone otherfield)
      = Raise ComparisonToNull) /\
  _create_filter sch model
    (MkFilter fieldname (JStr "is_null") PNone otherfield)
  = Ok (IsNull field) /\
  _create_filter sch model
    (MkFilter fieldname (JStr "is_not_null") PNone otherfield)
  = Ok (IsNotNull field).
Proof.
  intros Hsplit Hother Hfield. repeat split.
  - intros operator o Hop Hn.
    rewrite (@_create_filter_leaf model fieldname operator PNone otherfield
               relation fname o field Hsplit Hother Hop Hfield).
    rewrite Hn. reflexivity.
  - rewrite (@_create_filter_leaf model fieldname (JStr "is_null") PNone
               otherfield relation fname _ field Hsplit Hother eq_refl
               Hfield).
    reflexivity.
  - rewrite (@_create_filter_leaf model fieldname (JStr "is_not_null") PNone
               otherfield relation fname _ field Hsplit Hother eq_refl
               Hfield).
    reflexivity.
Qed.

(** C7, as the code has it.  On a leaf filter whose field resolves and
    which names no other field: a one-parameter operator ([is_null],
    [is_not_null]) ignores the argument, so compilation succeeds with the
    same predicate whether an argument is supplied or not; an operator
    with two or three parameters whose argument is omitted raises
    [ComparisonToNull], which is not the [KeyError] of an unknown
    operator. *)
Theorem arity_mismatch model fieldname otherfield relation fname field
  operator o :
  split_relation fieldname = Ok (relation, fname) ->
  truthy otherfield = false ->
  py_getattr sch model (py_or relation fname) = Ok field ->
  lookup_operator sch operator = Ok o ->
  (numargs o = 1 ->
   exists p,
     forall argument,
       _create_filter sch model
         (MkFilter fieldname operator argument otherfield) = Ok p) /\
  (numargs o <> 1 ->
   _create_filter sch model (MkFilter fieldname operator PNone otherfield)
   = Raise ComparisonToNull /\
   ComparisonToNull <> KeyError).
Proof.
  intros Hsplit Hother Hfield Hop. split.
  - intros Hn. destruct o as [body|body|body]; try discriminate.
    exists (body field). intros argument.
    rewrite (@_create_filter_leaf model fieldname operator argument
               otherfield relation fname _ field Hsplit Hother Hop Hfield).
    reflexivity.
  - intros Hn. split; [|discriminate].
    rewrite (@_create_filter_leaf model fieldname operator PNone otherfield
               relation fname o field Hsplit Hother Hop Hfield).
    destruct o as [body|body|body]; cbn in *; congruence.
Qed.

(** A field through which a class is related has the methods [has] and
    [any]. *)
Lemma py_method_related (f : attribute) sm (name : string) :
  submodel_of sch f = Ok (Some sm) -> py_method sch f name = Ok tt.
Proof.
  unfold submodel_of, py_method.
  destruct (attr_class_of f); try reflexivity; discriminate.
Qed.

(** [has] and [any] on a leaf filter with an argument: the method is
    looked up on the field, then the nested criterion is what
    [_sub_operator] returns. *)
Lemma _create_filter_has_any model fieldname argument otherfield relation
  fname field :
  split_relation fieldname = Ok (relation, fname) ->
  truthy otherfield = false ->
  py_getattr sch model (py_or relation fname) = Ok field ->
  is_none argument = false ->
  _create_filter sch model (MkFilter fieldname (JStr "has") argument otherfield)
  = (_ <- py_method sch field "has" ;;
     c <- _sub_operator sch (_create_operation sch) field argument fname ;;
     Ok (Has field c)) /\
  _create_filter sch model (MkFilter fieldname (JStr "any") argument otherfield)
  = (_ <- py_method sch field "any" ;;
     c <- _sub_operator sch (_create_operation sch) field argument fname ;;
     Ok (Any field c)).
Proof.
  intros Hsplit Hother Hfield Hnone. split.
  - rewrite (@_create_filter_leaf model fieldname (JStr "has") argument
               otherfield relation fname _ field Hsplit Hother eq_refl
               Hfield).
    cbn. rewrite Hnone. reflexivity.
  - rewrite (@_create_filter_leaf model fieldname (JStr "any") argument
               otherfield relation fname _ field Hsplit Hother eq_refl
               Hfield).
    cbn. rewrite Hnone. reflexivity.
Qed.

Lemma sa_eq_not_none g argument :
  is_none argument = false -> sa_eq g argument = Binary OpEq g argument.
Proof. intros H. unfold sa_eq. rewrite H. reflexivity. Qed.

(** C6.  On a [has] or [any] filter whose field resolves to [field],
    with [sm] the class related through [field]: when the argument is not
    a dictionary, the nested predicate is the equality between the
    argument and the attribute of [sm] that is named like the field of
    the outer filter; when the argument is a dictionary with a ['name']
    and an ['op'], the nested predicate is the compilation, against [sm],
    of the operation it describes, its ['name'] split on ['__'] into the
    field (first) and the relation (second). *)
Theorem has_any_subfilter model fieldname otherfield relation fname field sm :
  split_relation fieldname = Ok (relation, fname) ->
  truthy otherfield = false ->
  py_getattr sch model (py_or relation fname) = Ok field ->
  submodel_of sch field = Ok (Some sm) ->
  (forall argument g,
      is_none argument = false -> is_dict argument = false ->
      py_getattr sch sm fname = Ok g ->
      _create_filter sch model
        (MkFilter fieldname (JStr "has") argument otherfield)
      = Ok (Has field (Binary OpEq g argument)) /\
      _create_filter sch model
        (MkFilter fieldname (JStr "any") argument otherfield)
      = Ok (Any field (Binary OpEq g argument))) /\
  (forall d name op subfield subrelation,
      Dict.getitem d "name" = Ok name ->
      Dict.getitem d "op" = Ok op ->
      split_field name = Ok (subfield, subrelation) ->
      _create_filter sch model
        (MkFilter fieldname (JStr "has") (PJson (JDict d)) otherfield)
      = (c <- _create_operation sch sm subfield op
                (PJson (Dict.get d "val")) subrelation ;;
         Ok (Has field c)) /\
      _create_filter sch model
        (MkFilter fieldname (JStr "any") (PJson (JDict d)) otherfield)
      = (c <- _create_operation sch sm subfield op
                (PJson (Dict.get d "val")) subrelation ;;
         Ok (Any field c))) /\
  (forall s,
      Str.contains "__" s = false ->
      split_field (JStr s) = Ok (JStr s, JNull)) /\
  (forall s a b,
      Str.contains "__" s = true -> Str.split "__" s = [a; b] ->
      split_field (JStr s) = Ok (JStr a, JStr b)).
Proof.
  intros Hsplit Hother Hfield Hsm. repeat split.
  - destruct (@_create_filter_has_any model fieldname argument otherfield
                relation fname field Hsplit Hother Hfield H) as [-> _].
    rewrite (@py_method_related field sm "has" Hsm).
    unfold _sub_operator. rewrite Hsm. cbn [bind local].
    destruct argument as [[| | | | |d]| |]; try discriminate;
      rewrite H1; cbn [bind]; rewrite sa_eq_not_none by assumption;
      reflexivity.
  - destruct (@_create_filter_has_any model fieldname argument otherfield
                relation fname field Hsplit Hother Hfield H) as [_ ->].
    rewrite (@py_method_related field sm "any" Hsm).
    unfold _sub_operator. rewrite Hsm. cbn [bind local].
    destruct argument as [[| | | | |d]| |]; try discriminate;
      rewrite H1; cbn [bind]; rewrite sa_eq_not_none by assumption;
      reflexivity.
  - destruct (@_create_filter_has_any model fieldname (PJson (JDict d))
                otherfield relation fname field Hsplit Hother Hfield
                eq_refl) as [-> _].
    rewrite (@py_method_related field sm "has" Hsm).
    unfold _sub_operator. rewrite Hsm. cbn [bind].
    rewrite H, H0. cbn [bind]. rewrite H1. reflexivity.
  - destruct (@_create_filter_has_any model fieldname (PJson (JDict d))
                otherfield relation fname field Hsplit Hother Hfield
                eq_refl) as [_ ->].
    rewrite (@py_method_related field sm "any" Hsm).
    unfold _sub_operator. rewrite Hsm. cbn [bind].
    rewrite H, H0. cbn [bind]. rewrite H1. reflexivity.
  - intros s Hs. unfold split_field. cbn [py_in bind]. rewrite Hs.
    reflexivity.
  - intros s a b Hs Hab. unfold split_field. cbn [py_in bind]. rewrite Hs.
    cbn [py_split bind]. rewrite Hab. reflexivity.
Qed.

(** C10, as the code has it.  On a [has] or [any] filter whose argument
    is not [None] and whose field resolves to an attribute that is
    neither an [InstrumentedAttribute] nor an [AssociationProxy]: the
    method [has] (resp. [any]) is looked up on the field first, and a
    field without it raises [AttributeError], an error of the taxonomy,
    whatever the argument.  Only for a field that has the method, and an
    argument that is a value other than a dictionary, or a dictionary
    with a ['name'] that splits and an ['op'], is the unassigned related
    class read: compilation then raises [UnboundLocalError], which is
    none of the errors of the taxonomy. *)
Theorem has_any_unbound_submodel model fieldname otherfield relation fname
  field argument :
  split_relation fieldname = Ok (relation, fname) ->
  truthy otherfield = false ->
  py_getattr sch model (py_or relation fname) = Ok field ->
  attr_class_of field = OtherAttribute ->
  is_none argument = false ->
  (hasattr sch field "has" = false ->
   _create_filter sch model
     (MkFilter fieldname (JStr "has") argument otherfield)
   = Raise AttributeError) /\
  (hasattr sch field "any" = false ->
   _create_filter sch model
     (MkFilter fieldname (JStr "any") argument otherfield)
   = Raise AttributeError) /\
  In AttributeError taxonomy /\
  ((is_dict argument = false \/
    exists d name op subfield subrelation,
      argument = PJson (JDict d) /\
      Dict.getitem d "name" = Ok name /\
      Dict.getitem d "op" = Ok op /\
      split_field name = Ok (subfield, subrelation)) ->
   (hasattr sch field "has" = true ->
    _create_filter sch model
      (MkFilter fieldname (JStr "has") argument otherfield)
    = Raise UnboundLocalError) /\
   (hasattr sch field "any" = true ->
    _create_filter sch model
      (MkFilter fieldname (JStr "any") argument otherfield)
    = Raise UnboundLocalError)) /\
  ~ In UnboundLocalError taxonomy.
Proof.
  intros Hsplit Hother Hfield Hclass Hnone.
  destruct (@_create_filter_has_any model fieldname argument otherfield
              relation fname field Hsplit Hother Hfield Hnone) as [-> ->].
  unfold py_method. rewrite Hclass.
  split; [intros ->; reflexivity|].
  split; [intros ->; reflexivity|].
  split; [cbn; auto 10|].
  split; [|cbn; intuition discriminate].
  intros Harg.
  assert (E : _sub_operator sch (_create_operation sch) field argument fname
              = Raise UnboundLocalError).
  { unfold _sub_operator, submodel_of. rewrite Hclass. cbn [bind].
    destruct Harg as [Hd|(d & name & op & sf & sr & -> & Hn & Ho & Hs)].
    - destruct argument as [[| | | | |d]| |]; try discriminate; reflexivity.
    - rewrite Hn, Ho. cbn [bind]. rewrite Hs. reflexivity. }
  rewrite E. split; intros ->; reflexivity.
Qed.

End Leaf.

(** ** Junction filters and the parser *)

Section Loops.

Variables A B C : Type.

Lemma for_each_Ok (f : A -> result B) (l : list A) (ys : list B) :
  for_each f l = Ok ys <-> Forall2 (fun x y => f x = Ok y) l ys.
Proof.
  revert ys. induction l as [|x l IH]; intros ys; cbn.
  - split; intros H; inversion H; constructor.
  - destruct (f x) as [y|e] eqn:Hx; cbn.
    + destruct (for_each f l) as [ys'|e] eqn:Hl; cbn.
      * split; intros H.
        -- inversion H; subst. constructor; [exact Hx|]. apply IH.
           reflexivity.
        -- inversion H as [|? y' ? ys'' Hy Hys]; subst.
           apply IH in Hys. congruence.
      * split; intros H; [discriminate|].
        inversion H as [|? y' ? ys'' Hy Hys]; subst.
        apply IH in Hys. discriminate.
    + split; intros H; [discriminate|].
      inversion H; subst. congruence.
Qed.

(** Parsing every element and then compiling every parsed element
    succeeds exactly when parsing then compiling succeeds on each. *)
Lemma for_each_two_passes (f : A -> result B) (g : B -> result C)
  (l : list A) (zs : list C) :
  (ys <- for_each f l ;; for_each g ys) = Ok zs <->
  Forall2 (fun x z => (y <- f x ;; g y) = Ok z) l zs.
Proof.
  revert zs. induction l as [|x l IH]; intros zs; cbn.
  - split; intros H; inversion H; constructor.
  - destruct (f x) as [y|e] eqn:Hx; cbn.
    + destruct (for_each f l) as [ys|e] eqn:Hl; cbn in *.
      * destruct (g y) as [z|e] eqn:Hy; cbn.
        -- destruct (for_each g ys) as [zs'|e] eqn:Hg; cbn.
           ++ split; intros H.
              ** inversion H; subst. constructor.
                 { rewrite Hx. exact Hy. }
                 apply IH. reflexivity.
              ** inversion H as [|? z' ? zs'' Hz Hzs]; subst.
                 rewrite Hx in Hz. cbn in Hz. apply IH in Hzs. congruence.
           ++ split; intros H; [discriminate|].
              inversion H as [|? z' ? zs'' Hz Hzs]; subst.
              apply IH in Hzs. discriminate.
        -- split; intros H; [discriminate|].
           inversion H as [|? z' ? zs'' Hz Hzs]; subst.
           rewrite Hx in Hz. cbn in Hz. congruence.
      * split; intros H; [discriminate|].
        inversion H as [|? z' ? zs'' Hz Hzs]; subst.
        apply IH in Hzs. discriminate.
    + split; intros H; [discriminate|].
      inversion H as [|? z' ? zs'' Hz Hzs]; subst.
      rewrite Hx in Hz. discriminate.
Qed.

Lemma fold_each_invariant (St : Type) (f : St -> A -> result St)
  (P : St -> Prop) (l : list A) :
  (forall s x s', f s x = Ok s' -> P s -> P s') ->
  forall s s', fold_each f l s = Ok s' -> P s -> P s'.
Proof.
  intros Hstep. induction l as [|x l IH]; cbn; intros s s' H Hs.
  - inversion H; subst. exact Hs.
  - destruct (f s x) as [s1|e] eqn:Hx; cbn in H; [|discriminate].
    eapply IH; eauto.
Qed.

End Loops.

Section Junctions.

Variable sch : Schema.

Lemma dict_get_absent (d : Dict.t) (k : string) :
  Dict.contains k d = false -> Dict.get d k = JNull.
Proof.
  induction d as [|[k' v] d IH]; cbn; [reflexivity|].
  destruct (String.eqb k k'); cbn; [discriminate|exact IH].
Qed.

(** A dictionary with the key ['or'] is parsed and compiled as the
    disjunction of the elements of its ['or'] list, whether or not it also
    has the key ['and']. *)
Lemma compile_filter_or model d subs :
  Dict.contains "or" d = true ->
  Dict.get d "or" = JList subs ->
  from_dictionary sch model (JDict d)
  = (fs <- for_each (from_dictionary sch model) subs ;;
     Ok (DisjunctionFilter fs)) /\
  compile_filter sch model (JDict d)
  = (cs <- (fs <- for_each (from_dictionary sch model) subs ;;
            for_each (_create_filter sch model) fs) ;;
     Ok (or_ cs)).
Proof.
  intros Hor Hget.
  assert (E : from_dictionary sch model (JDict d)
              = (fs <- for_each (from_dictionary sch model) subs ;;
                 Ok (DisjunctionFilter fs))).
  { rewrite from_dictionary_eq. unfold from_dictionary_body.
    cbn [py_in bind]. rewrite Hor. cbn [py_get bind]. rewrite Hget.
    reflexivity. }
  split; [exact E|]. unfold compile_filter. rewrite E.
  destruct (for_each (from_dictionary sch model) subs) as [fs|e];
    reflexivity.
Qed.

(** A dictionary with the key ['and'] and without the key ['or'] is
    parsed and compiled as the conjunction of the elements of its ['and']
    list. *)
Lemma compile_filter_and model d subs :
  Dict.contains "or" d = false ->
  Dict.contains "and" d = true ->
  Dict.get d "and" = JList subs ->
  from_dictionary sch model (JDict d)
  = (fs <- for_each (from_dictionary sch model) subs ;;
     Ok (ConjunctionFilter fs)) /\
  compile_filter sch model (JDict d)
  = (cs <- (fs <- for_each (from_dictionary sch model) subs ;;
            for_each (_create_filter sch model) fs) ;;
     Ok (and_ cs)).
Proof.
  intros Hor Hand Hget.
  assert (E : from_dictionary sch model (JDict d)
              = (fs <- for_each (from_dictionary sch model) subs ;;
                 Ok (ConjunctionFilter fs))).
  { rewrite from_dictionary_eq. unfold from_dictionary_body.
    cbn [py_in bind]. rewrite Hor. cbn [py_in bind]. rewrite Hand.
    cbn [py_get bind]. rewrite Hget. reflexivity. }
  split; [exact E|]. unfold compile_filter. rewrite E.
  destruct (for_each (from_dictionary sch model) subs) as [fs|e];
    reflexivity.
Qed.

Lemma junction_Ok (model : model) (junction : list expr -> expr)
  (subs : list json) (p : expr) :
  (cs <- (fs <- for_each (from_dictionary sch model) subs ;;
          for_each (_create_filter sch model) fs) ;;
   Ok (junction cs)) = Ok p <->
  exists ps,
    Forall2 (fun s c => compile_filter sch model s = Ok c) subs ps /\
    p = junction ps.
Proof.
  destruct (fs <- for_each (from_dictionary sch model) subs ;;
            for_each (_create_filter sch model) fs) as [cs|e] eqn:H; cbn.
  - apply for_each_two_passes in H. split.
    + intros E. inversion E; subst. exists cs. split; [exact H|reflexivity].
    + intros [ps [Hps ->]]. apply for_each_two_passes in H, Hps.
      congruence.
  - split; [discriminate|]. intros [ps [Hps _]].
    apply for_each_two_passes in Hps. unfold compile_filter in Hps.
    congruence.
Qed.

End Junctions.

Section Matching.

Variable entity : Type.
Variable compare : binop -> attribute -> pyval -> entity -> tv.
Variable null : attribute -> entity -> bool.
Variable related : attribute -> entity -> list entity.

Lemma matches_and (ps : list expr) (x : entity) :
  matches compare null related (and_ ps) x
  = forallb (fun p => matches compare null related p x) ps.
Proof.
  unfold matches, and_. cbn [eval].
  induction ps as [|p ps IH]; cbn; [reflexivity|].
  rewrite <- IH.
  destruct (eval compare null related p x),
    (fold_right tv_and TT (map (fun c => eval compare null related c x) ps));
    reflexivity.
Qed.

Lemma matches_or (ps : list expr) (x : entity) :
  matches compare null related (or_ ps) x
  = existsb (fun p => matches compare null related p x) ps.
Proof.
  unfold matches, or_. cbn [eval].
  induction ps as [|p ps IH]; cbn; [reflexivity|].
  rewrite <- IH.
  destruct (eval compare null related p x),
    (fold_right tv_or FF (map (fun c => eval compare null related c x) ps));
    reflexivity.
Qed.

End Matching.

(** ** The composed query *)

Section ComposedQuery.

Variable sch : Schema.

Lemma order_step_preserves model q item q' :
  order_step sch model q item = Ok q' ->
  q_criterion q' = q_criterion q /\ q_group_by q' = q_group_by q.
Proof.
  unfold order_step. destruct item as [symbol field_name].
  destruct (Str.contains "." field_name).
  - destruct (unpack2 (Str.split "." field_name)) as [[a b]|]; cbn;
      [|discriminate].
    destruct (getattr_related sch (get_related_model sch model a) b)
      as [[rm f]|]; cbn; [|discriminate].
    intros H; inversion H; subst. split; reflexivity.
  - destruct (getattr_str sch model field_name) as [f|]; cbn;
      [|discriminate].
    intros H; inversion H; subst. split; reflexivity.
Qed.

Lemma group_step_preserves model q field_name q' :
  group_step sch model q field_name = Ok q' ->
  q_criterion q' = q_criterion q /\ q_order_by q' = q_order_by q.
Proof.
  unfold group_step.
  destruct (Str.contains "." field_name).
  - destruct (unpack2 (Str.split "." field_name)) as [[a b]|]; cbn;
      [|discriminate].
    destruct (getattr_related sch (get_related_model sch model a) b)
      as [[rm f]|]; cbn; [|discriminate].
    intros H; inversion H; subst. split; reflexivity.
  - destruct (getattr_str sch model field_name) as [f|]; cbn;
      [|discriminate].
    intros H; inversion H; subst. split; reflexivity.
Qed.

(** The primary-key ordering clauses: one ascending clause per name of
    [primary_key_names], in that order. *)
Lemma pk_order_Ok model (pks : list string) (clauses : list direction) :
  for_each (fun field => f <- getattr_str sch model field ;; Ok (Asc f)) pks
  = Ok clauses <->
  exists pk,
    Forall2 (fun name f => getattr sch model name = Some f) pks pk /\
    clauses = map Asc pk.
Proof.
  rewrite for_each_Ok. revert clauses.
  induction pks as [|name pks IH]; intros clauses; split.
  - intros H; inversion H; subst. exists []. split; constructor.
  - intros [pk [H ->]]. inversion H; subst. constructor.
  - intros H. inversion H as [|? c ? cs Hc Hcs]; subst.
    apply IH in Hcs. destruct Hcs as [pk [Hpk ->]].
    unfold getattr_str in Hc.
    destruct (getattr sch model name) as [f|] eqn:Hf; cbn in Hc;
      [|discriminate].
    inversion Hc; subst. exists (f :: pk). split; [|reflexivity].
    constructor; assumption.
  - intros [pk [H ->]]. inversion H as [|? f ? pk' Hf Hpk]; subst.
    cbn. constructor.
    + unfold getattr_str. rewrite Hf. reflexivity.
    + apply IH. exists pk'. split; [assumption|reflexivity].
Qed.

(** The stages of [create_query]: filtering, ordering, grouping. *)
Lemma create_query_stages session model filters sort group_by ignore q :
  create_query sch session model filters sort group_by ignore = Ok q <->
  exists fs ps q1,
    filters = Some fs /\
    Forall2 (fun f p => compile_filter sch model f = Ok p) fs ps /\
    (if negb ignore then
       if nonempty sort then
         fold_each (order_step sch model) (items sort)
           (QueryMethods.filter (session_query sch session model) ps)
       else
         pk_order <- for_each (fun field => f <- getattr_str sch model field ;;
                                            Ok (Asc f))
                       (primary_key_names sch model) ;;
         Ok (QueryMethods.order_by
               (QueryMethods.filter (session_query sch session model) ps)
               pk_order)
     else Ok (QueryMethods.filter (session_query sch session model) ps))
    = Ok q1 /\
    (if nonempty group_by then
       fold_each (group_step sch model) (items group_by) q1
     else Ok q1) = Ok q.
Proof.
  unfold create_query. destruct filters as [fs|]; cbn [bind].
  - destruct (for_each (from_dictionary sch model) fs) as [parsed|e] eqn:Hp;
      cbn [bind].
    + destruct (for_each (_create_filter sch model) parsed) as [ps|e] eqn:Hc;
        cbn [bind].
      * assert (Hps : Forall2 (fun f p => compile_filter sch model f = Ok p)
                        fs ps).
        { apply for_each_two_passes. rewrite Hp. exact Hc. }
        split.
        -- intros H.
           destruct (if negb ignore then _ else _) as [q1|e] eqn:Ho;
             cbn [bind] in H; [|discriminate].
           exists fs, ps, q1. repeat split; try assumption.
           destruct (if nonempty group_by then _ else _) as [q2|e];
             cbn [bind] in H; [exact H|discriminate].
        -- intros (fs' & ps' & q1 & Hfs & Hps' & Ho & Hg).
           inversion Hfs; subst fs'.
           assert (ps' = ps).
           { apply for_each_two_passes in Hps, Hps'. congruence. }
           subst ps'. rewrite Ho. cbn [bind]. rewrite Hg. reflexivity.
      * split; [discriminate|].
        intros (fs' & ps' & q1 & Hfs & Hps' & _). inversion Hfs; subst fs'.
        apply for_each_two_passes in Hps'. rewrite Hp in Hps'. cbn in Hps'.
        congruence.
    + split; [discriminate|].
      intros (fs' & ps' & q1 & Hfs & Hps' & _). inversion Hfs; subst fs'.
      apply for_each_two_passes in Hps'. rewrite Hp in Hps'. discriminate.
  - split; [discriminate|]. intros (fs' & ps' & q1 & Hfs & _). discriminate.
Qed.

Lemma ordering_preserves_criterion model (l : list (string * string)) q q' :
  fold_each (order_step sch model) l q = Ok q' ->
  q_criterion q' = q_criterion q.
Proof.
  intros H.
  apply (fold_each_invariant (order_step sch model)
           (fun s => q_criterion s = q_criterion q) l) with (s := q);
    [|exact H|reflexivity].
  intros s x s' Hs Heq. apply order_step_preserves in Hs.
  destruct Hs as [-> _]. exact Heq.
Qed.

Lemma grouping_preserves model (l : list string) q q' :
  fold_each (group_step sch model) l q = Ok q' ->
  q_criterion q' = q_criterion q /\ q_order_by q' = q_order_by q.
Proof.
  intros H.
  apply (fold_each_invariant (group_step sch model)
           (fun s => q_criterion s = q_criterion q /\
                     q_order_by s = q_order_by q) l) with (s := q);
    [|exact H|split; reflexivity].
  intros s x s' Hs [Hc Ho]. apply group_step_preserves in Hs.
  destruct Hs as [-> ->]. split; assumption.
Qed.

Lemma grouping_stage_preserves model group_by q q' :
  (if nonempty group_by then
     fold_each (group_step sch model) (items group_by) q
   else Ok q) = Ok q' ->
  q_criterion q' = q_criterion q /\ q_order_by q' = q_order_by q.
Proof.
  destruct (nonempty group_by).
  - apply grouping_preserves.
  - intros H; inversion H; subst. split; reflexivity.
Qed.

(** The criteria of the composed query are those of the base query
    followed by the compiled filters, in order. *)
Lemma create_query_criterion session model filters sort group_by ignore q :
  create_query sch session model filters sort group_by ignore = Ok q ->
  exists fs ps,
    filters = Some fs /\
    Forall2 (fun f p => compile_filter sch model f = Ok p) fs ps /\
    q_criterion q = (q_criterion (session_query sch session model) ++ ps)%list.
Proof.
  intros H. apply create_query_stages in H.
  destruct H as (fs & ps & q1 & Hfs & Hps & Ho & Hg).
  exists fs, ps. repeat split; try assumption.
  apply grouping_stage_preserves in Hg. destruct Hg as [-> _].
  destruct ignore; cbn [negb] in Ho.
  - inversion Ho; subst. reflexivity.
  - destruct (nonempty sort).
    + apply ordering_preserves_criterion in Ho. rewrite Ho. reflexivity.
    + destruct (for_each _ (primary_key_names sch model)) as [pk|];
        cbn [bind] in Ho; [|discriminate].
      inversion Ho; subst. reflexivity.
Qed.

End ComposedQuery.

(** ** Junctions, malformed filters, ordering and single results *)

Section Pipeline.

Variable sch : Schema.

(** C1.  A dictionary whose ['and'] key (and no ['or'] key) maps to a
    list of [N >= 1] sub-filters compiles exactly when every sub-filter
    compiles, to the conjunction of their predicates; likewise a
    dictionary whose ['or'] key maps to such a list compiles to the
    disjunction.  A row matches the conjunction iff it matches every
    child, and the disjunction iff it matches some child.  The criteria
    of the query made by [create_query] are the compiled filters of the
    list, in order (after those of the base query), and a row matches
    the query's WHERE clause iff it matches all of them. *)
Theorem junction_semantics model :
  (forall d subs,
      Dict.contains "or" d = false -> Dict.contains "and" d = true ->
      Dict.get d "and" = JList subs -> subs <> [] ->
      forall p,
        compile_filter sch model (JDict d) = Ok p <->
        exists ps,
          Forall2 (fun s c => compile_filter sch model s = Ok c) subs ps /\
          p = and_ ps) /\
  (forall d subs,
      Dict.contains "or" d = true ->
      Dict.get d "or" = JList subs -> subs <> [] ->
      forall p,
        compile_filter sch model (JDict d) = Ok p <->
        exists ps,
          Forall2 (fun s c => compile_filter sch model s = Ok c) subs ps /\
          p = or_ ps) /\
  (forall (entity : Type) compare null related ps (x : entity),
      matches compare null related (and_ ps) x
      = forallb (fun p => matches compare null related p x) ps /\
      matches compare null related (or_ ps) x
      = existsb (fun p => matches compare null related p x) ps) /\
  (forall session filters sort group_by ignore q,
      create_query sch session model filters sort group_by ignore = Ok q ->
      exists fs ps,
        filters = Some fs /\
        Forall2 (fun f p => compile_filter sch model f = Ok p) fs ps /\
        q_criterion q
        = (q_criterion (session_query sch session model) ++ ps)%list /\
        forall (entity : Type) compare null related (x : entity),
          matches compare null related (whereclause q) x
          = forallb (fun p => matches compare null related p x)
              (q_criterion q)).
Proof.
  repeat split.
  - intros H3.
    destruct (@compile_filter_and sch model d subs H H0 H1) as [_ E].
    rewrite E in H3. apply junction_Ok in H3. exact H3.
  - intros H3.
    destruct (@compile_filter_and sch model d subs H H0 H1) as [_ E].
    rewrite E. apply junction_Ok. exact H3.
  - intros H3.
    destruct (@compile_filter_or sch model d subs H H0) as [_ E].
    rewrite E in H3. apply junction_Ok in H3. exact H3.
  - intros H3.
    destruct (@compile_filter_or sch model d subs H H0) as [_ E].
    rewrite E. apply junction_Ok. exact H3.
  - apply matches_and.
  - apply matches_or.
  - intros session filters sort group_by ignore q H.
    destruct (@create_query_criterion sch session model filters sort
                group_by ignore q H) as (fs & ps & Hfs & Hps & Hq).
    exists fs, ps. repeat split; try assumption.
    intros entity compare null related x. apply matches_and.
Qed.

(** C4.  When ordering is not suppressed and no sort is requested, the
    query made by [create_query] carries, after the ordering of the base
    query, one ascending clause per primary-key name, in the order of
    [primary_key_names]; when ordering is suppressed it carries the
    ordering of the base query and nothing else, whatever the sort
    parameter.  With filters that compile, primary-key names that are
    attributes of the model and no grouping, these queries exist. *)
Theorem default_ordering session model filters sort group_by :
  (forall q,
      create_query sch session model filters sort group_by false = Ok q ->
      nonempty sort = false ->
      exists pk,
        Forall2 (fun name f => getattr sch model name = Some f)
          (primary_key_names sch model) pk /\
        q_order_by q
        = (q_order_by (session_query sch session model) ++ map Asc pk)%list)
  /\
  (forall q,
      create_query sch session model filters sort group_by true = Ok q ->
      q_order_by q = q_order_by (session_query sch session model)) /\
  (forall fs ps pk,
      filters = Some fs ->
      Forall2 (fun f p => compile_filter sch model f = Ok p) fs ps ->
      Forall2 (fun name f => getattr sch model name = Some f)
        (primary_key_names sch model) pk ->
      nonempty group_by = false ->
      (nonempty sort = false ->
       create_query sch session model filters sort group_by false
       = Ok (QueryMethods.order_by
               (QueryMethods.filter (session_query sch session model) ps)
               (map Asc pk))) /\
      create_query sch session model filters sort group_by true
      = Ok (QueryMethods.filter (session_query sch session model) ps)).
Proof.
  repeat split.
  - intros q H Hsort. apply create_query_stages in H.
    destruct H as (fs & ps & q1 & Hfs & Hps & Ho & Hg).
    apply grouping_stage_preserves in Hg. destruct Hg as [_ ->].
    cbn [negb] in Ho. rewrite Hsort in Ho.
    destruct (for_each _ (primary_key_names sch model)) as [clauses|] eqn:Hpk;
      cbn [bind] in Ho; [|discriminate].
    apply pk_order_Ok in Hpk. destruct Hpk as [pk [Hpk ->]].
    exists pk. split; [exact Hpk|]. inversion Ho; subst. reflexivity.
  - intros q H. apply create_query_stages in H.
    destruct H as (fs & ps & q1 & Hfs & Hps & Ho & Hg).
    apply grouping_stage_preserves in Hg. destruct Hg as [_ ->].
    cbn [negb] in Ho. inversion Ho; subst. reflexivity.
  - intros Hsort. apply create_query_stages.
    exists fs, ps,
      (QueryMethods.order_by
         (QueryMethods.filter (session_query sch session model) ps)
         (map Asc pk)).
    repeat split; try assumption.
    + cbn [negb]. rewrite Hsort.
      assert (E : for_each (fun field => f <- getattr_str sch model field ;;
                                         Ok (Asc f))
                    (primary_key_names sch model) = Ok (map Asc pk)).
      { apply pk_order_Ok. exists pk. split; [assumption|reflexivity]. }
      rewrite E. reflexivity.
    + rewrite H2. reflexivity.
  - apply create_query_stages.
    exists fs, ps,
      (QueryMethods.filter (session_query sch session model) ps).
    repeat split; try assumption.
    rewrite H2. reflexivity.
Qed.

Section SingleResult.

Variable entity : Type.
Variable fetch : Query -> list entity.

(** C5.  When [create_query] makes the query [q]: in single-result mode
    [search] returns the instance if [q] has exactly one row, raises
    [NoResultFound] if it has none and [MultipleResultsFound] if it has
    two or more; otherwise [search] returns [q] itself, whose rows are
    the full result sequence in query order. *)
Theorem search_single session model filters sort group_by ignore q :
  create_query sch session model filters sort group_by ignore = Ok q ->
  (forall x,
      fetch q = [x] ->
      search sch fetch session model filters sort group_by true ignore
      = Ok (Instance x)) /\
  (fetch q = [] ->
   search sch fetch session model filters sort group_by true ignore
   = Raise NoResultFound) /\
  (forall x y rest,
      fetch q = x :: y :: rest ->
      search sch fetch session model filters sort group_by true ignore
      = Raise MultipleResultsFound) /\
  search sch fetch session model filters sort group_by false ignore
  = Ok (Results entity q).
Proof.
  intros H. unfold search, one. rewrite H. cbn [bind]. repeat split.
  - intros x Hx. rewrite Hx. reflexivity.
  - intros Hx. rewrite Hx. reflexivity.
  - intros x y rest Hx. rewrite Hx. reflexivity.
Qed.

End SingleResult.

(** A dictionary with neither ['or'] nor ['and'] is parsed as a leaf. *)
Lemma from_dictionary_leaf model d :
  Dict.contains "or" d = false -> Dict.contains "and" d = false ->
  from_dictionary sch model (JDict d)
  = (argument <- string_to_datetime sch model (Dict.get d "name")
                   (Dict.get d "val") ;;
     Ok (MkFilter (Dict.get d "name") (Dict.get d "op") argument
           (Dict.get d "field"))).
Proof.
  intros Hor Hand. rewrite from_dictionary_eq. unfold from_dictionary_body.
  cbn [py_in bind]. rewrite Hor. cbn [py_in bind]. rewrite Hand.
  reflexivity.
Qed.

(** C8, as the code has it.  A leaf dictionary without ['name'] or
    without ['op'] does not compile: without ['name'] the error is
    [TypeError] once the value has been coerced; without ['op'] it is
    the [KeyError] of the operator lookup once the name has been split
    and no other field is named.  A dictionary with the key ['or'] is
    compiled as the disjunction of its ['or'] list, whether or not it
    also has the key ['and']. *)
Theorem malformed_filter model d :
  (Dict.contains "or" d = false -> Dict.contains "and" d = false ->
   Dict.contains "name" d = false \/ Dict.contains "op" d = false ->
   exists e, compile_filter sch model (JDict d) = Raise e) /\
  (Dict.contains "or" d = false -> Dict.contains "and" d = false ->
   Dict.contains "name" d = false ->
   forall v,
     string_to_datetime sch model JNull (Dict.get d "val") = Ok v ->
     compile_filter sch model (JDict d) = Raise TypeError) /\
  (Dict.contains "or" d = false -> Dict.contains "and" d = false ->
   Dict.contains "op" d = false ->
   forall v relation fname,
     string_to_datetime sch model (Dict.get d "name") (Dict.get d "val")
     = Ok v ->
     split_relation (Dict.get d "name") = Ok (relation, fname) ->
     truthy (Dict.get d "field") = false ->
     compile_filter sch model (JDict d) = Raise KeyError) /\
  (Dict.contains "or" d = true ->
   forall subs,
     Dict.get d "or" = JList subs ->
     compile_filter sch model (JDict d)
     = (cs <- (fs <- for_each (from_dictionary sch model) subs ;;
               for_each (_create_filter sch model) fs) ;;
        Ok (or_ cs))).
Proof.
  repeat split.
  - intros Hor Hand Hmissing. unfold compile_filter.
    rewrite (from_dictionary_leaf model d Hor Hand).
    destruct (string_to_datetime sch model (Dict.get d "name")
                (Dict.get d "val")) as [v|e]; cbn [bind];
      [|eexists; reflexivity].
    destruct Hmissing as [Hname|Hop].
    + rewrite (dict_get_absent d "name" Hname). eexists. reflexivity.
    + rewrite (dict_get_absent d "op" Hop). cbn [_create_filter].
      destruct (split_relation (Dict.get d "name")) as [[relation fname]|e];
        cbn [bind]; [|eexists; reflexivity].
      destruct (if truthy (Dict.get d "field") then _ else _) as [val|e];
        cbn [bind]; [|eexists; reflexivity].
      rewrite _create_operation_eq. eexists. reflexivity.
  - intros Hor Hand Hname v Hv. unfold compile_filter.
    rewrite (from_dictionary_leaf model d Hor Hand).
    rewrite (dict_get_absent d "name" Hname). rewrite Hv. reflexivity.
  - intros Hor Hand Hop v relation fname Hv Hsplit Hother.
    unfold compile_filter.
    rewrite (from_dictionary_leaf model d Hor Hand).
    rewrite Hv. cbn [bind]. rewrite (dict_get_absent d "op" Hop).
    cbn [_create_filter]. rewrite Hsplit. cbn [bind]. rewrite Hother.
    cbn [bind]. rewrite _create_operation_eq. reflexivity.
  - intros Hor subs Hget.
    apply (proj2 (@compile_filter_or sch model d subs Hor Hget)).
Qed.

(** C9, as the code has it.  A junction dictionary whose ['or'] or
    ['and'] key maps to the empty list is accepted: it is parsed as a
    junction without sub-filters and compiled to the empty disjunction or
    conjunction. *)
Theorem empty_junction model d :
  (Dict.contains "or" d = true -> Dict.get d "or" = JList [] ->
   from_dictionary sch model (JDict d) = Ok (DisjunctionFilter []) /\
   compile_filter sch model (JDict d) = Ok (or_ [])) /\
  (Dict.contains "or" d = false -> Dict.contains "and" d = true ->
   Dict.get d "and" = JList [] ->
   from_dictionary sch model (JDict d) = Ok (ConjunctionFilter []) /\
   compile_filter sch model (JDict d) = Ok (and_ [])).
Proof.
  split.
  - intros Hor Hget.
    destruct (@compile_filter_or sch model d [] Hor Hget) as [-> ->].
    split; reflexivity.
  - intros Hor Hand Hget.
    destruct (@compile_filter_and sch model d [] Hor Hand Hget) as [-> ->].
    split; reflexivity.
Qed.

End Pipeline.

Lemma synonyms_compile_alike_witness :
  _create_filter TestModels.schema "Person"
    (MkFilter (JStr "id") (JStr "equals") (PJson (JInt 1)) JNull)
  = _create_filter TestModels.schema "Person"
      (MkFilter (JStr "id") (JStr "==") (PJson (JInt 1)) JNull).
Proof.
  refine (proj1 (proj2 (@synonyms_compile_alike TestModels.schema
            ["=="; "eq"; "equals"; "equal_to"] "equals" "==" _ _ _)
            "Person" (JStr "id") (PJson (JInt 1)) JNull));
    cbn; auto.
Defined.

Lemma comparison_to_null_witness :
  (forall operator o,
      lookup_operator TestModels.schema operator = Ok o -> numargs o = 2 ->
      _create_filter TestModels.schema "Person"
        (MkFilter (JStr "name") operator PNone JNull)
      = Raise ComparisonToNull) /\
  _create_filter TestModels.schema "Person"
    (MkFilter (JStr "name") (JStr "is_null") PNone JNull)
  = Ok (IsNull (TestModels.column "Person" "name")) /\
  _create_filter TestModels.schema "Person"
    (MkFilter (JStr "name") (JStr "is_not_null") PNone JNull)
  = Ok (IsNotNull (TestModels.column "Person" "name")).
Proof.
  apply (@comparison_to_null TestModels.schema "Person" (JStr "name") JNull
           JNull (JStr "name") (TestModels.column "Person" "name"));
    reflexivity.
Defined.

(** [is_null] with an argument supplied compiles, to the null test: the
    filter [{"name": "name", "op": "is_null", "val": 5}] on [Person]. *)
Lemma arity_mismatch_counterexample :
  _create_filter TestModels.schema "Person"
    (MkFilter (JStr "name") (JStr "is_null") (PJson (JInt 5)) JNull)
  = Ok (IsNull (TestModels.column "Person" "name")) /\
  ~ (exists e,
        _create_filter TestModels.schema "Person"
          (MkFilter (JStr "name") (JStr "is_null") (PJson (JInt 5)) JNull)
        = Raise e /\ e <> KeyError).
Proof.
  split; [reflexivity|]. intros [e [H _]]. vm_compute in H. discriminate.
Qed.

Lemma arity_mismatch_witness :
  (exists p,
      forall argument,
        _create_filter TestModels.schema "Person"
          (MkFilter (JStr "name") (JStr "is_null") argument JNull) = Ok p) /\
  (_create_filter TestModels.schema "Person"
     (MkFilter (JStr "name") (JStr "like") PNone JNull)
   = Raise ComparisonToNull /\ ComparisonToNull <> KeyError).
Proof.
  split.
  - refine (proj1 (@arity_mismatch TestModels.schema "Person" (JStr "name")
                     JNull JNull (JStr "name")
                     (TestModels.column "Person" "name") (JStr "is_null") _
                     eq_refl eq_refl eq_refl eq_refl) eq_refl).
  - refine (proj2 (@arity_mismatch TestModels.schema "Person" (JStr "name")
                     JNull JNull (JStr "name")
                     (TestModels.column "Person" "name") (JStr "like") _
                     eq_refl eq_refl eq_refl eq_refl) _).
    cbn. discriminate.
Defined.

Lemma has_any_subfilter_witness :
  _create_filter TestModels.schema "Person"
    (MkFilter (JStr "comments__content") (JStr "any")
       (PJson (JStr "cool")) JNull)
  = Ok (Any (TestModels.relationship "Person" "comments")
          (Binary OpEq (TestModels.column "Comment" "content")
             (PJson (JStr "cool")))) /\
  _create_filter TestModels.schema "Comment"
    (MkFilter (JStr "author") (JStr "has")
       (PJson (TestModels.leaf "id" "gt" (JInt 1))) JNull)
  = (c <- _create_operation TestModels.schema "Person" (JStr "id")
            (JStr "gt") (PJson (JInt 1)) JNull ;;
     Ok (Has (TestModels.relationship "Comment" "author") c)).
Proof.
  split.
  - refine (proj2 (proj1 (@has_any_subfilter TestModels.schema "Person"
              (JStr "comments__content") JNull (JStr "comments")
              (JStr "content") (TestModels.relationship "Person" "comments")
              "Comment" eq_refl eq_refl eq_refl eq_refl)
              (PJson (JStr "cool")) (TestModels.column "Comment" "content")
              eq_refl eq_refl eq_refl)).
  - refine (proj1 (proj1 (proj2 (@has_any_subfilter TestModels.schema
              "Comment" (JStr "author") JNull JNull (JStr "author")
              (TestModels.relationship "Comment" "author") "Person"
              eq_refl eq_refl eq_refl eq_refl))
              [("name", JStr "id"); ("op", JStr "gt"); ("val", JInt 1)]
              (JStr "id") (JStr "gt") (JStr "id") JNull
              eq_refl eq_refl eq_refl)).
Defined.

(** A plain column is an instrumented attribute: [has] on the column
    [name] of [Person] takes the first branch of [_sub_operator] and fails
    with the [AttributeError] of [.property.mapper].  [metadata] is of
    neither class: without an argument the null guard comes first, and
    with one the lookup of the method [any] fails with [AttributeError]
    before the related class is read. *)
Lemma has_any_unbound_submodel_counterexample :
  getattr TestModels.schema "Person" "name"
  = Some (TestModels.column "Person" "name") /\
  _create_filter TestModels.schema "Person"
    (MkFilter (JStr "name") (JStr "has") (PJson (JInt 3)) JNull)
  = Raise AttributeError /\
  In AttributeError taxonomy /\
  getattr TestModels.schema "Person" "metadata"
  = Some (Attribute "Person" "metadata" OtherAttribute) /\
  _create_filter TestModels.schema "Person"
    (MkFilter (JStr "metadata") (JStr "has") PNone JNull)
  = Raise ComparisonToNull /\
  _create_filter TestModels.schema "Person"
    (MkFilter (JStr "metadata") (JStr "any") (PJson (JInt 3)) JNull)
  = Raise AttributeError.
Proof.
  split; [reflexivity|]. split; [reflexivity|].
  split; [cbn; auto|]. split; [reflexivity|]. split; reflexivity.
Qed.

Lemma has_any_unbound_submodel_witness :
  (_create_filter OtherComparator.schema "Person"
     (MkFilter (JStr "alias") (JStr "has") (PJson (JInt 3)) JNull)
   = Raise UnboundLocalError /\
   _create_filter OtherComparator.schema "Person"
     (MkFilter (JStr "alias") (JStr "any") (PJson (JInt 3)) JNull)
   = Raise UnboundLocalError) /\
  _create_filter TestModels.schema "Person"
    (MkFilter (JStr "metadata") (JStr "has")
       (PJson (TestModels.leaf "id" "gt" (JInt 1))) JNull)
  = Raise AttributeError.
Proof.
  split.
  - pose proof (@has_any_unbound_submodel OtherComparator.schema "Person"
                  (JStr "alias") JNull JNull (JStr "alias")
                  OtherComparator.alias (PJson (JInt 3))
                  eq_refl eq_refl eq_refl eq_refl eq_refl)
      as (_ & _ & _ & H & _).
    destruct (H (or_introl eq_refl)) as [Hhas Hany].
    split; [exact (Hhas eq_refl)|exact (Hany eq_refl)].
  - exact (proj1 (@has_any_unbound_submodel TestModels.schema "Person"
                    (JStr "metadata") JNull JNull (JStr "metadata")
                    (Attribute "Person" "metadata" OtherAttribute)
                    (PJson (TestModels.leaf "id" "gt" (JInt 1)))
                    eq_refl eq_refl eq_refl eq_refl eq_refl) eq_refl).
Defined.

Lemma junction_semantics_witness :
  compile_filter TestModels.schema "Person" TestModels.name_like_and_age_ge
  = Ok (and_ [Binary OpLike (TestModels.column "Person" "name")
                (PJson (JStr "%u%"));
              Binary OpGe (TestModels.column "Person" "age")
                (PJson (JInt 10))]).
Proof.
  apply (proj1 (@junction_semantics TestModels.schema "Person")
           [("and", JList [TestModels.leaf "name" "like" (JStr "%u%");
                           TestModels.leaf "age" "ge" (JInt 10)])]
           [TestModels.leaf "name" "like" (JStr "%u%");
            TestModels.leaf "age" "ge" (JInt 10)]
           eq_refl eq_refl eq_refl).
  - discriminate.
  - eexists. split; [|reflexivity].
    constructor; [reflexivity|]. constructor; [reflexivity|]. constructor.
Defined.

Lemma default_ordering_witness :
  (exists pk,
      Forall2 (fun name f => getattr TestModels.schema "ArticleTag" name
                             = Some f)
        (primary_key_names TestModels.schema "ArticleTag") pk /\
      q_order_by TestModels.article_tags
      = (q_order_by (session_query TestModels.schema 0 "ArticleTag")
           ++ map Asc pk)%list) /\
  create_query TestModels.schema 0 "ArticleTag" (Some [])
    (Some [("-", "id")]) None true
  = Ok (QueryMethods.filter
          (session_query TestModels.schema 0 "ArticleTag") []).
Proof.
  split.
  - apply (proj1 (@default_ordering TestModels.schema 0 "ArticleTag"
                    (Some []) None None) TestModels.article_tags);
      reflexivity.
  - refine (proj2 (proj2 (proj2 (@default_ordering TestModels.schema 0
              "ArticleTag" (Some []) (Some [("-", "id")]) None)) [] []
              [TestModels.column "ArticleTag" "article_id";
               TestModels.column "ArticleTag" "tag_id"]
              eq_refl _ _ eq_refl)).
    + constructor.
    + constructor; [reflexivity|]. constructor; [reflexivity|]. constructor.
Defined.

Lemma search_single_witness :
  search TestModels.schema (fun _ => [7]) 0 "ArticleTag" (Some []) None None
    true false
  = Ok (Instance 7) /\
  search TestModels.schema (fun _ : Query => @nil nat) 0 "ArticleTag"
    (Some []) None None true false
  = Raise NoResultFound /\
  search TestModels.schema (fun _ => [7; 8]) 0 "ArticleTag" (Some []) None
    None true false
  = Raise MultipleResultsFound /\
  search TestModels.schema (fun _ => [7; 8]) 0 "ArticleTag" (Some []) None
    None false false
  = Ok (Results nat TestModels.article_tags).
Proof.
  split; [|split; [|split]].
  - apply (proj1 (@search_single TestModels.schema nat (fun _ => [7]) 0
                    "ArticleTag" (Some []) None None false
                    TestModels.article_tags eq_refl) 7 eq_refl).
  - apply (proj1 (proj2 (@search_single TestModels.schema nat
                    (fun _ => []) 0 "ArticleTag" (Some []) None None false
                    TestModels.article_tags eq_refl)) eq_refl).
  - apply (proj1 (proj2 (proj2 (@search_single TestModels.schema nat
                    (fun _ => [7; 8]) 0 "ArticleTag" (Some []) None None
                    false TestModels.article_tags eq_refl))) 7 8 []
             eq_refl).
  - apply (proj2 (proj2 (proj2 (@search_single TestModels.schema nat
                    (fun _ => [7; 8]) 0 "ArticleTag" (Some []) None None
                    false TestModels.article_tags eq_refl)))).
Defined.

(** A dictionary with both ["and"] and ["or"] is compiled, as the
    disjunction of its ["or"] list. *)
Lemma malformed_filter_counterexample :
  compile_filter TestModels.schema "Person" TestModels.both_and_or
  = Ok (or_ [Binary OpEq (TestModels.column "Person" "name")
               (PJson (JStr "John"))]) /\
  is_ok (create_query TestModels.schema 0 "Person"
           (Some [TestModels.both_and_or]) None None false) = true /\
  ~ (exists e,
        compile_filter TestModels.schema "Person" TestModels.both_and_or
        = Raise e).
Proof.
  split; [reflexivity|]. split; [reflexivity|].
  intros [e H]. vm_compute in H. discriminate.
Qed.

Lemma malformed_filter_witness :
  compile_filter TestModels.schema "Person" TestModels.missing_fieldname
  = Raise TypeError /\
  compile_filter TestModels.schema "Person" TestModels.missing_operator
  = Raise KeyError /\
  compile_filter TestModels.schema "Person" TestModels.both_and_or
  = (cs <- (fs <- for_each (from_dictionary TestModels.schema "Person")
                    [TestModels.leaf "name" "eq" (JStr "John")] ;;
            for_each (_create_filter TestModels.schema "Person") fs) ;;
     Ok (or_ cs)).
Proof.
  split; [|split].
  - apply (proj1 (proj2 (@malformed_filter TestModels.schema "Person"
                    [("op", JStr "=="); ("val", JStr "foo")]))
             eq_refl eq_refl eq_refl (PJson (JStr "foo")) eq_refl).
  - apply (proj1 (proj2 (proj2 (@malformed_filter TestModels.schema "Person"
                    [("name", JStr "age"); ("val", JInt 3)])))
             eq_refl eq_refl eq_refl (PJson (JInt 3)) JNull (JStr "age")
             eq_refl eq_refl eq_refl).
  - apply (proj2 (proj2 (proj2 (@malformed_filter TestModels.schema "Person"
                    [("and", JList [TestModels.leaf "age" "ge" (JInt 10)]);
                     ("or", JList [TestModels.leaf "name" "eq"
                                     (JStr "John")])])))
             eq_refl [TestModels.leaf "name" "eq" (JStr "John")] eq_refl).
Defined.

(** The junction [{"and": []}] is compiled, to the empty conjunction, and
    [create_query] composes a query with it. *)
Lemma empty_junction_counterexample :
  compile_filter TestModels.schema "Person" TestModels.empty_and
  = Ok (and_ []) /\
  is_ok (create_query TestModels.schema 0 "Person"
           (Some [TestModels.empty_and]) None None false) = true /\
  ~ (exists e,
        create_query TestModels.schema 0 "Person"
          (Some [TestModels.empty_and]) None None false = Raise e).
Proof.
  split; [reflexivity|]. split; [reflexivity|].
  intros [e H]. vm_compute in H. discriminate.
Qed.

Lemma empty_junction_witness :
  (from_dictionary TestModels.schema "Person" (JDict [("or", JList [])])
   = Ok (DisjunctionFilter []) /\
   compile_filter TestModels.schema "Person" (JDict [("or", JList [])])
   = Ok (or_ [])) /\
  (from_dictionary TestModels.schema "Person" TestModels.empty_and
   = Ok (ConjunctionFilter []) /\
   compile_filter TestModels.schema "Person" TestModels.empty_and
   = Ok (and_ [])).
Proof.
  split.
  - apply (proj1 (@empty_junction TestModels.schema "Person"
                    [("or", JList [])]) eq_refl eq_refl).
  - apply (proj2 (@empty_junction TestModels.schema "Person"
                    [("and", JList [])]) eq_refl eq_refl eq_refl).
Defined.

(** ** The filters of the test suite *)

Example test_search_boolean_formula :
  compile_filter TestModels.schema "Person" TestModels.boolean_formula
  = Ok (Or [And [Binary OpLike (TestModels.column "Person" "name")
                   (PJson (JStr "%u%"));
                 Binary OpGe (TestModels.column "Person" "age")
                   (PJson (JInt 10))];
            Binary OpEq (TestModels.column "Person" "name")
              (PJson (JStr "John"))]).
Proof. reflexivity. Qed.

Example test_any_in_to_many :
  compile_filter TestModels.schema "Person"
    (TestModels.leaf "comments" "any"
       (TestModels.leaf "content" "like" (JStr "%cool%")))
  = Ok (Any (TestModels.relationship "Person" "comments")
          (Binary OpLike (TestModels.column "Comment" "content")
             (PJson (JStr "%cool%")))).
Proof. reflexivity. Qed.

Example test_association_proxy_any :
  compile_filter TestModels.schema "Article"
    (TestModels.leaf "tags" "any" (TestModels.leaf "name" "eq" (JStr "bar")))
  = Ok (Any (Attribute "Article" "tags" AssociationProxy)
          (Binary OpEq (TestModels.column "Tag" "name")
             (PJson (JStr "bar")))).
Proof. reflexivity. Qed.

Example test_comparing_fields :
  compile_filter TestModels.schema "Person"
    (JDict [("name", JStr "age"); ("op", JStr "eq"); ("field", JStr "id")])
  = Ok (Binary OpEq (TestModels.column "Person" "age")
          (PAttr (TestModels.column "Person" "id"))).
Proof. reflexivity. Qed.

Example test_compare_equals_to_null :
  compile_filter TestModels.schema "Person"
    (TestModels.leaf "name" "eq" JNull)
  = Raise ComparisonToNull.
Proof. reflexivity. Qed.

Example test_invalid_field :
  compile_filter TestModels.schema "Person"
    (TestModels.leaf "foo" ">" (JInt 2))
  = Raise AttributeError.
Proof. reflexivity. Qed.

Example test_invalid_operator :
  compile_filter TestModels.schema "Person"
    (TestModels.leaf "age" "bogus" (JInt 2))
  = Raise KeyError.
Proof. reflexivity. Qed.

Example split_on_double_underscore :
  Str.split "__" "comments__content" = ["comments"; "content"] /\
  Str.split "__" "a____b" = ["a"; ""; "b"] /\
  Str.split "__" "a___b" = ["a"; "_b"] /\
  Str.split "." "owner.name" = ["owner"; "name"].
Proof. repeat split. Qed.

Example sort_and_group_on_relation :
  create_query TestModels.schema 0 "Comment" (Some [])
    (Some [("-", "author.name"); ("+", "id")]) (Some ["author.id"]) false
  = Ok {| q_entity := "Comment";
          q_criterion := [];
          q_join := ["Person"; "Person"];
          q_order_by := [Desc (TestModels.column "Person" "name");
                         Asc (TestModels.column "Comment" "id")];
          q_group_by := [TestModels.column "Person" "id"] |}.
Proof. reflexivity. Qed.

(** * Further properties of the compiler *)

(** ** The operator table and the order of the checks *)

Section Operators.

Variable sch : Schema.

Lemma assoc_Some (s : string) (table : list (string * opfunc)) (o : opfunc) :
  assoc s table = Some o -> In (s, o) table.
Proof.
  induction table as [|[k v] table IH]; cbn; [discriminate|].
  destruct (String.eqb_spec s k) as [->|Hne].
  - intros H; inversion H; subst. left. reflexivity.
  - intros H. right. apply IH. exact H.
Qed.

Lemma assoc_None (s : string) (table : list (string * opfunc)) :
  assoc s table = None -> ~ In s (map fst table).
Proof.
  induction table as [|[k v] table IH]; cbn; [tauto|].
  destruct (String.eqb_spec s k) as [->|Hne]; [discriminate|].
  intros H [Hk|Hin]; [congruence|]. exact (IH H Hin).
Qed.

Lemma operator_names :
  map fst (OPERATORS sch)
  = (unary_operators ++ binary_operators ++ ternary_operators)%list.
Proof. reflexivity. Qed.

(** The operator table: a name is a key of [OPERATORS] with a lambda of
    one parameter exactly when it is [is_null] or [is_not_null], of two
    parameters exactly when it is one of the twenty-five comparison names,
    of three exactly when it is [has] or [any]; every other string is a
    [KeyError].  A list or a dict as operator is a [TypeError], and
    [None], a Boolean or a number a [KeyError]. *)
Theorem operator_table (s : string) :
  (In s unary_operators <->
   exists o, lookup_operator sch (JStr s) = Ok o /\ numargs o = 1) /\
  (In s binary_operators <->
   exists o, lookup_operator sch (JStr s) = Ok o /\ numargs o = 2) /\
  (In s ternary_operators <->
   exists o, lookup_operator sch (JStr s) = Ok o /\ numargs o = 3) /\
  (~ In s (unary_operators ++ binary_operators ++ ternary_operators) <->
   lookup_operator sch (JStr s) = Raise KeyError) /\
  (forall l, lookup_operator sch (JList l) = Raise TypeError) /\
  (forall d, lookup_operator sch (JDict d) = Raise TypeError) /\
  lookup_operator sch JNull = Raise KeyError /\
  (forall b, lookup_operator sch (JBool b) = Raise KeyError) /\
  (forall z, lookup_operator sch (JInt z) = Raise KeyError).
Proof.
  assert (Hfound : forall o,
             lookup_operator sch (JStr s) = Ok o ->
             (numargs o = 1 /\ In s unary_operators) \/
             (numargs o = 2 /\ In s binary_operators) \/
             (numargs o = 3 /\ In s ternary_operators)).
  { intros o H. cbn [lookup_operator] in H.
    destruct (assoc s (OPERATORS sch)) as [o'|] eqn:Ha; [|discriminate].
    inversion H; subst o'. apply assoc_Some in Ha.
    unfold OPERATORS in Ha. cbn [In] in Ha.
    repeat (destruct Ha as [Ha|Ha];
            [inversion Ha; subst; cbn; tauto|]).
    contradiction. }
  assert (Hnum : forall o n m,
             lookup_operator sch (JStr s) = Ok o -> numargs o = n ->
             n <> m -> numargs o = m -> False) by (intros; congruence).
  repeat split; try reflexivity.
  - intros H. cbn [In unary_operators] in H.
    repeat (destruct H as [<-|H]; [eexists; split; reflexivity|]).
    contradiction.
  - intros [o [Ho Hn]].
    destruct (Hfound o Ho) as [[_ H]|[[H _]|[H _]]];
      [exact H|congruence|congruence].
  - intros H. cbn [In binary_operators] in H.
    repeat (destruct H as [<-|H]; [eexists; split; reflexivity|]).
    contradiction.
  - intros [o [Ho Hn]].
    destruct (Hfound o Ho) as [[H _]|[[_ H]|[H _]]];
      [congruence|exact H|congruence].
  - intros H. cbn [In ternary_operators] in H.
    repeat (destruct H as [<-|H]; [eexists; split; reflexivity|]).
    contradiction.
  - intros [o [Ho Hn]].
    destruct (Hfound o Ho) as [[H _]|[[H _]|[_ H]]];
      [congruence|congruence|exact H].
  - intros Hnot. cbn [lookup_operator].
    destruct (assoc s (OPERATORS sch)) as [o|] eqn:Ha; [|reflexivity].
    exfalso. apply Hnot. rewrite <- operator_names.
    apply assoc_Some in Ha. apply (in_map fst) in Ha. exact Ha.
  - intros H Hin. cbn [lookup_operator] in H.
    destruct (assoc s (OPERATORS sch)) as [o|] eqn:Ha; [discriminate|].
    apply assoc_None in Ha. rewrite operator_names in Ha. exact (Ha Hin).
Qed.

(** The order of the checks of [_create_operation]: the operator is
    looked up first, then the field, then the argument. So an unknown
    operator is reported whatever the field and the argument are, and a
    field that does not resolve is reported for a known operator whatever
    the argument is, [None] included. *)
Theorem operation_checks_in_order model fieldname operator argument relation :
  (forall e,
      lookup_operator sch operator = Raise e ->
      _create_operation sch model fieldname operator argument relation
      = Raise e) /\
  (forall o e,
      lookup_operator sch operator = Ok o ->
      py_getattr sch model (py_or relation fieldname) = Raise e ->
      _create_operation sch model fieldname operator argument relation
      = Raise e) /\
  (forall o field,
      lookup_operator sch operator = Ok o ->
      py_getattr sch model (py_or relation fieldname) = Ok field ->
      numargs o <> 1 -> is_none argument = true ->
      _create_operation sch model fieldname operator argument relation
      = Raise ComparisonToNull).
Proof.
  repeat split.
  - intros e He. rewrite _create_operation_eq.
    unfold _create_operation_body. rewrite He. reflexivity.
  - intros o e Ho He. rewrite _create_operation_eq.
    unfold _create_operation_body. rewrite Ho. cbn [bind]. rewrite He.
    reflexivity.
  - intros o field Ho Hf Hn Hnone. rewrite _create_operation_eq.
    unfold _create_operation_body. rewrite Ho. cbn [bind]. rewrite Hf.
    cbn [bind]. rewrite Hnone.
    destruct o; cbn in *; congruence.
Qed.

End Operators.

Lemma operation_checks_in_order_witness :
  _create_operation TestModels.schema "Person" (JStr "foo") (JStr "bogus")
    PNone JNull = Raise KeyError /\
  _create_operation TestModels.schema "Person" (JStr "foo") (JStr "eq")
    PNone JNull = Raise AttributeError /\
  _create_operation TestModels.schema "Person" (JStr "name") (JStr "any")
    PNone JNull = Raise ComparisonToNull.
Proof.
  split; [|split].
  - apply (proj1 (@operation_checks_in_order TestModels.schema "Person"
                    (JStr "foo") (JStr "bogus") PNone JNull) KeyError
             eq_refl).
  - refine (proj1 (proj2 (@operation_checks_in_order TestModels.schema
              "Person" (JStr "foo") (JStr "eq") PNone JNull)) _
              AttributeError eq_refl eq_refl).
  - refine (proj2 (proj2 (@operation_checks_in_order TestModels.schema
              "Person" (JStr "name") (JStr "any") PNone JNull)) _
              (TestModels.column "Person" "name") eq_refl eq_refl _
              eq_refl).
    cbn. discriminate.
Defined.

Lemma operator_table_witness :
  (exists o,
      lookup_operator TestModels.schema (JStr "gte") = Ok o /\
      numargs o = 2) /\
  lookup_operator TestModels.schema (JStr "GTE") = Raise KeyError.
Proof.
  split.
  - apply (proj1 (proj1 (proj2 (@operator_table TestModels.schema "gte")))).
    cbn. auto 30.
  - apply (proj1 (proj1 (proj2 (proj2 (proj2
             (@operator_table TestModels.schema "GTE")))))).
    cbn. intuition discriminate.
Defined.

(** ** Field names, other fields and nested sub-filters *)

Section Names.

Variable sch : Schema.

Lemma unpack2_length (A : Type) (l : list A) :
  length l <> 2 -> unpack2 l = Raise ValueError.
Proof.
  destruct l as [|a [|b [|c l]]]; cbn; intros H; try reflexivity.
  contradiction H. reflexivity.
Qed.

Lemma truthy_str (s : string) : s <> "" -> truthy (JStr s) = true.
Proof.
  intros H. cbn. destruct (String.eqb_spec s ""); [contradiction|reflexivity].
Qed.




(** A relation-qualified name at the top level.  With an operator of one
    or two parameters, the filter on [rel__x] is compiled like the filter
    on [rel]: the operator is applied to the attribute [rel] of the model
    and the part after the delimiter is not looked up. *)
Theorem relation_qualified_name model s rel x operator o argument otherfield :
  Str.contains "__" s = true ->
  Str.split "__" s = [rel; x] ->
  rel <> "" ->
  Str.contains "__" rel = false ->
  lookup_operator sch operator = Ok o ->
  numargs o <> 3 ->
  _create_filter sch model (MkFilter (JStr s) operator argument otherfield)
  = _create_filter sch model (MkFilter (JStr rel) operator argument otherfield).
Proof.
  intros Hc Hs Hrel Hcr Ho Hn. cbn [_create_filter].
  unfold split_relation. cbn [py_in py_split bind]. rewrite Hc, Hcr, Hs.
  cbn [map unpack2 bind].
  destruct (if truthy otherfield then _ else _) as [val|e]; cbn [bind];
    [|reflexivity].
  rewrite !_create_operation_eq. unfold _create_operation_body.
  rewrite Ho. cbn [bind]. unfold py_or. rewrite (truthy_str Hrel).
  cbn [truthy].
  destruct (py_getattr sch model (JStr rel)) as [field|e]; cbn [bind];
    [|reflexivity].
  destruct o as [body|body|body]; cbn in *; [reflexivity| |contradiction].
  destruct (is_none val); reflexivity.
Qed.

(** A name with two or more delimiters: when ['__'] occurs in the name
    and the name does not split in exactly two parts, compilation raises
    [ValueError], at the top level whatever the operator and the argument
    are, and in the dictionary argument of [has] and [any] on a field
    through which a class is related. *)
Theorem too_many_delimiters model s :
  Str.contains "__" s = true ->
  length (Str.split "__" s) <> 2 ->
  (forall operator argument otherfield,
      _create_filter sch model (MkFilter (JStr s) operator argument otherfield)
      = Raise ValueError) /\
  (forall fieldname otherfield relation fname field sm d op,
      split_relation fieldname = Ok (relation, fname) ->
      truthy otherfield = false ->
      py_getattr sch model (py_or relation fname) = Ok field ->
      submodel_of sch field = Ok (Some sm) ->
      Dict.getitem d "name" = Ok (JStr s) ->
      Dict.getitem d "op" = Ok op ->
      _create_filter sch model
        (MkFilter fieldname (JStr "has") (PJson (JDict d)) otherfield)
      = Raise ValueError /\
      _create_filter sch model
        (MkFilter fieldname (JStr "any") (PJson (JDict d)) otherfield)
      = Raise ValueError).
Proof.
  intros Hc Hlen.
  assert (Hu : unpack2 (map JStr (Str.split "__" s)) = Raise ValueError).
  { apply unpack2_length. rewrite length_map. exact Hlen. }
  split.
  - intros operator argument otherfield. cbn [_create_filter].
    unfold split_relation. cbn [py_in py_split bind]. rewrite Hc.
    cbn [bind]. rewrite Hu. reflexivity.
  - intros fieldname otherfield relation fname field sm d op
      Hs Hother Hf Hsm Hname Hop.
    destruct (@_create_filter_has_any sch model fieldname (PJson (JDict d))
                otherfield relation fname field Hs Hother Hf eq_refl)
      as [-> ->].
    rewrite !(@py_method_related sch field sm _ Hsm).
    unfold _sub_operator. rewrite Hsm. cbn [bind]. rewrite Hname, Hop.
    cbn [bind]. unfold split_field. cbn [py_in py_split bind]. rewrite Hc.
    cbn [bind]. rewrite Hu. split; reflexivity.
Qed.


End Names.


Lemma relation_qualified_name_witness :
  _create_filter TestModels.schema "Person"
    (MkFilter (JStr "comments__content") (JStr "is_not_null") PNone JNull)
  = _create_filter TestModels.schema "Person"
      (MkFilter (JStr "comments") (JStr "is_not_null") PNone JNull).
Proof.
  refine (@relation_qualified_name TestModels.schema "Person"
            "comments__content" "comments" "content" (JStr "is_not_null") _
            PNone JNull eq_refl eq_refl _ eq_refl eq_refl _).
  - discriminate.
  - cbn. discriminate.
Defined.

Lemma too_many_delimiters_witness :
  _create_filter TestModels.schema "Person"
    (MkFilter (JStr "a__b__c") (JStr "eq") (PJson (JInt 1)) JNull)
  = Raise ValueError /\
  _create_filter TestModels.schema "Comment"
    (MkFilter (JStr "author") (JStr "has")
       (PJson (TestModels.leaf "a__b__c" "eq" (JInt 1))) JNull)
  = Raise ValueError.
Proof.
  split.
  - refine (proj1 (@too_many_delimiters TestModels.schema "Person" "a__b__c"
              eq_refl _) (JStr "eq") (PJson (JInt 1)) JNull).
    cbn. discriminate.
  - refine (proj1 (proj2 (@too_many_delimiters TestModels.schema "Comment"
              "a__b__c" eq_refl _)
              (JStr "author") JNull JNull (JStr "author")
              (TestModels.relationship "Comment" "author") "Person"
              [("name", JStr "a__b__c"); ("op", JStr "eq"); ("val", JInt 1)]
              (JStr "eq") eq_refl eq_refl eq_refl eq_refl eq_refl eq_refl)).
    cbn. discriminate.
Defined.


(** ** Nested [has] and [any] *)

Section Nesting.

Variable sch : Schema.



End Nesting.


(** ** What the parser accepts *)

Section Parser.

Variable sch : Schema.

Lemma for_each_app (A B : Type) (f : A -> result B) (l1 l2 : list A) :
  for_each f (l1 ++ l2)%list
  = (ys1 <- for_each f l1 ;; ys2 <- for_each f l2 ;; Ok (ys1 ++ ys2)%list).
Proof.
  induction l1 as [|x l1 IH]; cbn.
  - destruct (for_each f l2); reflexivity.
  - destruct (f x) as [y|e]; cbn; [|reflexivity]. rewrite IH.
    destruct (for_each f l1) as [ys1|e]; cbn; [|reflexivity].
    destruct (for_each f l2) as [ys2|e]; reflexivity.
Qed.

Lemma for_each_all_ok (A B : Type) (f : A -> result B) (l : list A) :
  Forall (fun x => is_ok (f x) = true) l ->
  exists ys, for_each f l = Ok ys /\ Forall2 (fun x y => f x = Ok y) l ys.
Proof.
  induction 1 as [|x l Hx Hl [ys [IH IH2]]]; cbn.
  - exists []. split; [reflexivity|constructor].
  - destruct (f x) as [y|e] eqn:Hy; [|discriminate]. cbn. rewrite IH.
    exists (y :: ys). split; [reflexivity|]. constructor; assumption.
Qed.

Lemma for_each_raises (A B : Type) (f : A -> result B) (l : list A) (x : A)
  (e : exn) :
  In x l -> f x = Raise e -> exists e', for_each f l = Raise e'.
Proof.
  induction l as [|y l IH]; cbn; [contradiction|].
  intros [->|Hin] He.
  - rewrite He. eexists. reflexivity.
  - destruct (f y) as [z|e1]; cbn; [|eexists; reflexivity].
    destruct (IH Hin He) as [e' ->]. eexists. reflexivity.
Qed.

Lemma from_dictionary_not_dict model j :
  (forall d, j <> JDict d) ->
  from_dictionary sch model j
  = match j with
    | JStr _ | JList _ => Raise AttributeError
    | _ => Raise TypeError
    end.
Proof.
  intros H. rewrite from_dictionary_eq. unfold from_dictionary_body.
  destruct j as [| | |s|l|d]; try reflexivity.
  - cbn [py_in bind]. destruct (Str.contains "or" s); cbn [py_get bind];
      [reflexivity|].
    destruct (Str.contains "and" s); reflexivity.
  - cbn [py_in bind]. destruct (existsb _ l); cbn [py_get bind];
      [reflexivity|].
    destruct (existsb _ l); reflexivity.
  - contradiction (H d). reflexivity.
Qed.

(** A filter object must be a dictionary.  [None], a Boolean or a number
    raises [TypeError] and a string or a list [AttributeError]; so
    [from_dictionary] returns a filter only for a dictionary, and
    [create_query] makes no query from a list of filters in which some
    element is not a dictionary. *)
Theorem filter_object_must_be_dictionary model j :
  (forall d, j <> JDict d) ->
  from_dictionary sch model j
  = match j with
    | JStr _ | JList _ => Raise AttributeError
    | _ => Raise TypeError
    end /\
  (forall session fs sort group_by ignore,
      In j fs ->
      exists e,
        create_query sch session model (Some fs) sort group_by ignore
        = Raise e).
Proof.
  intros H. split; [apply from_dictionary_not_dict; exact H|].
  intros session fs sort group_by ignore Hin.
  assert (He : exists e, from_dictionary sch model j = Raise e).
  { rewrite (from_dictionary_not_dict model H).
    destruct j; eexists; reflexivity. }
  destruct He as [e He].
  destruct (for_each_raises (from_dictionary sch model) fs j Hin He)
    as [e' He'].
  exists e'. unfold create_query. rewrite He'. reflexivity.
Qed.

(** The value under ['or'] need not be a list.  [None], a Boolean or a
    number is not iterable ([TypeError]); an empty string or an empty
    dictionary gives a disjunction without sub-filters; a non-empty string
    or dictionary is iterated over its characters or keys, which are not
    dictionaries ([AttributeError]).  The same holds for ['and'] in a
    dictionary without ['or']. *)
Theorem junction_value_not_a_list model d v :
  (forall l, v <> JList l) ->
  (Dict.contains "or" d = true -> Dict.get d "or" = v ->
   from_dictionary sch model (JDict d)
   = match v with
     | JNull | JBool _ | JInt _ => Raise TypeError
     | JStr "" | JDict [] => Ok (DisjunctionFilter [])
     | _ => Raise AttributeError
     end) /\
  (Dict.contains "or" d = false -> Dict.contains "and" d = true ->
   Dict.get d "and" = v ->
   from_dictionary sch model (JDict d)
   = match v with
     | JNull | JBool _ | JInt _ => Raise TypeError
     | JStr "" | JDict [] => Ok (ConjunctionFilter [])
     | _ => Raise AttributeError
     end).
Proof.
  intros Hv.
  assert (Hstr : forall s, from_dictionary sch model (JStr s)
                           = Raise AttributeError).
  { intros s. apply (@from_dictionary_not_dict model (JStr s)).
    intros d0. discriminate. }
  assert (Hiter : forall junction : list Filter -> Filter,
             (items <- py_iter v ;;
              subs <- for_each (from_dictionary sch model) items ;;
              Ok (junction subs))
             = match v with
               | JNull | JBool _ | JInt _ => Raise TypeError
               | JStr "" | JDict [] => Ok (junction [])
               | _ => Raise AttributeError
               end).
  { intros junction. destruct v as [| | |s|l|d0]; try reflexivity.
    - destruct s as [|c s]; [reflexivity|].
      cbn [py_iter list_ascii_of_string map bind for_each].
      rewrite Hstr. reflexivity.
    - contradiction (Hv l). reflexivity.
    - destruct d0 as [|[k x] d0]; [reflexivity|].
      cbn [py_iter Dict.keys map fst bind for_each].
      rewrite Hstr. reflexivity. }
  split.
  - intros Hor Hget. rewrite from_dictionary_eq.
    unfold from_dictionary_body. cbn [py_in bind]. rewrite Hor.
    cbn [py_get bind]. rewrite Hget. apply Hiter.
  - intros Hor Hand Hget. rewrite from_dictionary_eq.
    unfold from_dictionary_body. cbn [py_in bind]. rewrite Hor.
    cbn [py_in bind]. rewrite Hand. cbn [py_get bind]. rewrite Hget.
    apply Hiter.
Qed.

(** [create_query] parses every filter of the list before it compiles
    any of them: the error of the first filter that does not parse is
    raised even when an earlier filter would not compile; and when every
    filter parses, the error of the first filter that does not compile is
    raised, whatever the sort and group-by parameters are. *)
Theorem filter_errors_first session model fs1 f fs2 sort group_by ignore e :
  (Forall (fun x => is_ok (from_dictionary sch model x) = true) fs1 ->
   from_dictionary sch model f = Raise e ->
   create_query sch session model (Some (fs1 ++ f :: fs2)%list) sort
     group_by ignore = Raise e) /\
  (Forall (fun x => is_ok (from_dictionary sch model x) = true)
     (fs1 ++ f :: fs2)%list ->
   Forall (fun x => is_ok (compile_filter sch model x) = true) fs1 ->
   compile_filter sch model f = Raise e ->
   create_query sch session model (Some (fs1 ++ f :: fs2)%list) sort
     group_by ignore = Raise e).
Proof.
  split.
  - intros Hok He. unfold create_query. rewrite for_each_app.
    destruct (for_each_all_ok (from_dictionary sch model) Hok)
      as [p1 [-> _]].
    cbn [bind for_each]. rewrite He. reflexivity.
  - intros Hparse Hok He. unfold create_query. rewrite for_each_app.
    apply Forall_app in Hparse. destruct Hparse as [Hp1 Hp2].
    inversion Hp2 as [|? ? Hpf Hp3]; subst.
    destruct (for_each_all_ok (from_dictionary sch model) Hp1)
      as [p1 [-> H1]].
    destruct (for_each_all_ok (from_dictionary sch model) Hp3)
      as [p2 [E2 _]].
    cbn [bind for_each]. unfold compile_filter in He.
    destruct (from_dictionary sch model f) as [pf|] eqn:Ef; [|discriminate].
    cbn [bind] in He |- *. rewrite E2. cbn [bind]. rewrite for_each_app.
    assert (Hc1 : exists c1, for_each (_create_filter sch model) p1 = Ok c1).
    { clear - H1 Hok. induction H1 as [|x y l ys Hxy Hl IH].
      - exists []. reflexivity.
      - inversion Hok as [|? ? Hx Hrest]; subst.
        destruct (IH Hrest) as [c1 Hc1]. unfold compile_filter in Hx.
        rewrite Hxy in Hx. cbn [bind] in Hx. cbn [for_each].
        destruct (_create_filter sch model y) as [c|]; [|discriminate].
        cbn [bind]. fold (for_each (_create_filter sch model)).
        rewrite Hc1. eexists. reflexivity. }
    destruct Hc1 as [c1 ->]. cbn [bind for_each]. rewrite He. reflexivity.
Qed.

End Parser.

Lemma filter_object_must_be_dictionary_witness :
  from_dictionary TestModels.schema "Person" (JStr "bogus")
  = Raise AttributeError /\
  exists e,
    create_query TestModels.schema 0 "Person"
      (Some [TestModels.leaf "id" "eq" (JInt 1); JStr "bogus"]) None None
      false = Raise e.
Proof.
  assert (H : forall d, JStr "bogus" <> JDict d) by (intros d; discriminate).
  split.
  - apply (proj1 (@filter_object_must_be_dictionary TestModels.schema
                    "Person" (JStr "bogus") H)).
  - apply (proj2 (@filter_object_must_be_dictionary TestModels.schema
                    "Person" (JStr "bogus") H)).
    cbn. auto.
Defined.

Lemma junction_value_not_a_list_witness :
  from_dictionary TestModels.schema "Person" (JDict [("or", JStr "")])
  = Ok (DisjunctionFilter []) /\
  from_dictionary TestModels.schema "Person" (JDict [("and", JInt 3)])
  = Raise TypeError.
Proof.
  split.
  - refine (proj1 (@junction_value_not_a_list TestModels.schema "Person"
              [("or", JStr "")] (JStr "") _) eq_refl eq_refl).
    intros l. discriminate.
  - refine (proj2 (@junction_value_not_a_list TestModels.schema "Person"
              [("and", JInt 3)] (JInt 3) _) eq_refl eq_refl eq_refl).
    intros l. discriminate.
Defined.

Lemma filter_errors_first_witness :
  create_query TestModels.schema 0 "Person"
    (Some [TestModels.leaf "age" "bogus" (JInt 2); JInt 5]) None None false
  = Raise TypeError.
Proof.
  refine (proj1 (@filter_errors_first TestModels.schema 0 "Person"
            [TestModels.leaf "age" "bogus" (JInt 2)] (JInt 5) [] None None
            false TypeError) _ eq_refl).
  constructor; [reflexivity|constructor].
Defined.

(** ** The shape of the composed query *)

Section Shape.

Variable sch : Schema.

Lemma appended_nil q : appended q [] [] [] = q.
Proof. destruct q. unfold appended. cbn. rewrite !app_nil_r. reflexivity. Qed.

Lemma appended_appended q js os gs js' os' gs' :
  appended (appended q js os gs) js' os' gs'
  = appended q (js ++ js') (os ++ os') (gs ++ gs').
Proof. unfold appended. cbn. rewrite !app_assoc. reflexivity. Qed.

Lemma join_order_by_appended q rm clause :
  QueryMethods.order_by (QueryMethods.join q rm) [clause]
  = appended q [rm] [clause] [].
Proof.
  unfold QueryMethods.order_by, QueryMethods.join, appended. cbn.
  rewrite app_nil_r. reflexivity.
Qed.

Lemma order_by_appended q clauses :
  QueryMethods.order_by q clauses = appended q [] clauses [].
Proof.
  unfold QueryMethods.order_by, appended. rewrite !app_nil_r. reflexivity.
Qed.

Lemma join_group_by_appended q rm f :
  QueryMethods.group_by (QueryMethods.join q rm) [f] = appended q [rm] [] [f].
Proof.
  unfold QueryMethods.group_by, QueryMethods.join, appended. cbn.
  rewrite app_nil_r. reflexivity.
Qed.

Lemma group_by_appended q fs :
  QueryMethods.group_by q fs = appended q [] [] fs.
Proof.
  unfold QueryMethods.group_by, appended. rewrite !app_nil_r. reflexivity.
Qed.

Lemma filter_appended q js os gs ps :
  QueryMethods.filter (appended q js os gs) ps
  = appended (QueryMethods.filter q ps) js os gs.
Proof. reflexivity. Qed.

(** One step of the sort loop adds one ordering clause, and one join
    when the name is dotted; what it adds does not depend on the query. *)
Lemma order_step_appends model item q q' :
  order_step sch model q item = Ok q' ->
  exists js os,
    length os = 1 /\
    length js = (if dotted (snd item) then 1 else 0) /\
    forall q0, order_step sch model q0 item = Ok (appended q0 js os []).
Proof.
  unfold order_step, dotted. destruct item as [symbol field_name]. cbn [snd].
  destruct (Str.contains "." field_name).
  - destruct (unpack2 (Str.split "." field_name)) as [[a b]|]; cbn [bind];
      [|discriminate].
    destruct (getattr_related sch (get_related_model sch model a) b)
      as [[rm f]|]; cbn [bind]; [|discriminate].
    intros _. eexists [rm], [_]. repeat split.
    intros q0. rewrite join_order_by_appended. reflexivity.
  - destruct (getattr_str sch model field_name) as [f|]; cbn [bind];
      [|discriminate].
    intros _. eexists [], [_]. repeat split.
    intros q0. rewrite order_by_appended. reflexivity.
Qed.

Lemma group_step_appends model field_name q q' :
  group_step sch model q field_name = Ok q' ->
  exists js gs,
    length gs = 1 /\
    length js = (if dotted field_name then 1 else 0) /\
    forall q0, group_step sch model q0 field_name = Ok (appended q0 js [] gs).
Proof.
  unfold group_step, dotted.
  destruct (Str.contains "." field_name).
  - destruct (unpack2 (Str.split "." field_name)) as [[a b]|]; cbn [bind];
      [|discriminate].
    destruct (getattr_related sch (get_related_model sch model a) b)
      as [[rm f]|]; cbn [bind]; [|discriminate].
    intros _. eexists [rm], [f]. repeat split.
    intros q0. rewrite join_group_by_appended. reflexivity.
  - destruct (getattr_str sch model field_name) as [f|]; cbn [bind];
      [|discriminate].
    intros _. eexists [], [f]. repeat split.
    intros q0. rewrite group_by_appended. reflexivity.
Qed.

Lemma ordering_appends model (l : list (string * string)) :
  forall q q',
    fold_each (order_step sch model) l q = Ok q' ->
    exists js os,
      length os = length l /\
      length js = length (filter (fun item => dotted (snd item)) l) /\
      forall q0,
        fold_each (order_step sch model) l q0 = Ok (appended q0 js os []).
Proof.
  induction l as [|item l IH]; cbn [fold_each]; intros q q' H.
  - exists [], []. repeat split. intros q0. rewrite appended_nil.
    reflexivity.
  - destruct (order_step sch model q item) as [q1|] eqn:H1; cbn [bind] in H;
      [|discriminate].
    destruct (order_step_appends _ _ _ H1) as (js1 & os1 & Ho1 & Hj1 & E1).
    destruct (IH _ _ H) as (js2 & os2 & Ho2 & Hj2 & E2).
    exists (js1 ++ js2)%list, (os1 ++ os2)%list. repeat split.
    + rewrite length_app, Ho1, Ho2. reflexivity.
    + rewrite length_app, Hj1, Hj2. cbn [filter].
      destruct (dotted (snd item)); reflexivity.
    + intros q0. rewrite E1. cbn [bind]. rewrite E2.
      rewrite appended_appended. reflexivity.
Qed.

Lemma grouping_appends model (l : list string) :
  forall q q',
    fold_each (group_step sch model) l q = Ok q' ->
    exists js gs,
      length gs = length l /\
      length js = length (filter dotted l) /\
      forall q0,
        fold_each (group_step sch model) l q0 = Ok (appended q0 js [] gs).
Proof.
  induction l as [|name l IH]; cbn [fold_each]; intros q q' H.
  - exists [], []. repeat split. intros q0. rewrite appended_nil.
    reflexivity.
  - destruct (group_step sch model q name) as [q1|] eqn:H1; cbn [bind] in H;
      [|discriminate].
    destruct (group_step_appends _ _ _ H1) as (js1 & gs1 & Hg1 & Hj1 & E1).
    destruct (IH _ _ H) as (js2 & gs2 & Hg2 & Hj2 & E2).
    exists (js1 ++ js2)%list, (gs1 ++ gs2)%list. repeat split.
    + rewrite length_app, Hg1, Hg2. reflexivity.
    + rewrite length_app, Hj1, Hj2. cbn [filter].
      destruct (dotted name); reflexivity.
    + intros q0. rewrite E1. cbn [bind]. rewrite E2.
      rewrite appended_appended. reflexivity.
Qed.

Lemma items_empty (A : Type) (x : option (list A)) :
  nonempty x = false -> items x = [].
Proof. destruct x as [[|a l]|]; cbn; intros H; [reflexivity|discriminate|reflexivity]. Qed.

(** What the ordering and grouping stages add to the filtered query is
    the same whatever the filters are. *)
Lemma stages_append session model fs sort group_by ignore q :
  create_query sch session model (Some fs) sort group_by ignore = Ok q ->
  exists ps js os gs,
    Forall2 (fun f p => compile_filter sch model f = Ok p) fs ps /\
    q = appended (QueryMethods.filter (session_query sch session model) ps)
          js os gs /\
    length os = (if ignore then 0
                 else if nonempty sort then length (items sort)
                      else length (primary_key_names sch model)) /\
    length gs = length (items group_by) /\
    length js
    = (if ignore then 0
       else length (filter (fun item => dotted (snd item)) (items sort)))
      + length (filter dotted (items group_by)) /\
    forall fs' ps',
      Forall2 (fun f p => compile_filter sch model f = Ok p) fs' ps' ->
      create_query sch session model (Some fs') sort group_by ignore
      = Ok (appended
              (QueryMethods.filter (session_query sch session model) ps')
              js os gs).
Proof.
  intros H. apply create_query_stages in H.
  destruct H as (fs0 & ps & q1 & Hfs & Hps & Ho & Hg).
  inversion Hfs; subst fs0. clear Hfs.
  set (base := session_query sch session model) in *.
  assert (Horder : exists js1 os1,
             length os1 = (if ignore then 0
                           else if nonempty sort then length (items sort)
                                else length (primary_key_names sch model)) /\
             length js1
             = (if ignore then 0
                else length (filter (fun item => dotted (snd item))
                               (items sort))) /\
             forall q0,
               (if negb ignore then
                  if nonempty sort then
                    fold_each (order_step sch model) (items sort) q0
                  else
                    pk_order <- for_each
                                  (fun field =>
                                     f <- getattr_str sch model field ;;
                                     Ok (Asc f))
                                  (primary_key_names sch model) ;;
                    Ok (QueryMethods.order_by q0 pk_order)
                else Ok q0) = Ok (appended q0 js1 os1 [])).
  { destruct ignore; cbn [negb] in *.
    - exists [], []. repeat split. intros q0. rewrite appended_nil.
      reflexivity.
    - destruct (nonempty sort) eqn:Hs.
      + destruct (ordering_appends _ _ _ Ho) as (js1 & os1 & H1 & H2 & H3).
        exists js1, os1. repeat split; assumption.
      + destruct (for_each _ (primary_key_names sch model)) as [clauses|]
          eqn:Hpk; cbn [bind] in Ho; [|discriminate].
        exists [], clauses. repeat split.
        * apply for_each_Ok in Hpk. symmetry.
          apply (Forall2_length Hpk).
        * rewrite (items_empty sort Hs). reflexivity.
        * intros q0. cbn [bind]. rewrite order_by_appended. reflexivity. }
  destruct Horder as (js1 & os1 & Hos1 & Hjs1 & Eorder).
  rewrite Eorder in Ho. inversion Ho; subst q1. clear Ho.
  assert (Hgroup : exists js2 gs,
             length gs = length (items group_by) /\
             length js2 = length (filter dotted (items group_by)) /\
             forall q0,
               (if nonempty group_by then
                  fold_each (group_step sch model) (items group_by) q0
                else Ok q0) = Ok (appended q0 js2 [] gs)).
  { destruct (nonempty group_by) eqn:Hgb.
    - destruct (grouping_appends _ _ _ Hg) as (js2 & gs & H1 & H2 & H3).
      exists js2, gs. repeat split; assumption.
    - exists [], []. rewrite (items_empty group_by Hgb). repeat split.
      intros q0. rewrite appended_nil. reflexivity. }
  destruct Hgroup as (js2 & gs & Hgs & Hjs2 & Egroup).
  rewrite Egroup in Hg. inversion Hg; subst q. clear Hg.
  exists ps, (js1 ++ js2)%list, os1, gs.
  split; [exact Hps|]. split.
  { rewrite appended_appended. rewrite app_nil_r. reflexivity. }
  split; [exact Hos1|]. split; [exact Hgs|]. split.
  { rewrite length_app, Hjs1, Hjs2. reflexivity. }
  intros fs' ps' Hps'. apply create_query_stages.
  exists fs', ps',
    (appended (QueryMethods.filter (session_query sch session model) ps')
       js1 os1 []).
  split; [reflexivity|]. split; [exact Hps'|]. split; [apply Eorder|].
  rewrite Egroup. rewrite appended_appended. rewrite app_nil_r. reflexivity.
Qed.

(** The shape of the composed query.  [create_query] keeps the entity of
    the base query; it adds one ordering clause per sort item, or one per
    primary-key name when no sort is given, and none when ordering is
    suppressed; one grouping clause per group-by name; and one join per
    dotted name among the sort items (unless ordering is suppressed) and
    the group-by names. *)
Theorem composed_query_shape session model filters sort group_by ignore q :
  create_query sch session model filters sort group_by ignore = Ok q ->
  q_entity q = q_entity (session_query sch session model) /\
  length (q_order_by q)
  = length (q_order_by (session_query sch session model))
    + (if ignore then 0
       else if nonempty sort then length (items sort)
            else length (primary_key_names sch model)) /\
  length (q_group_by q)
  = length (q_group_by (session_query sch session model))
    + length (items group_by) /\
  length (q_join q)
  = length (q_join (session_query sch session model))
    + ((if ignore then 0
        else length (filter (fun item => dotted (snd item)) (items sort)))
       + length (filter dotted (items group_by))).
Proof.
  intros H. destruct filters as [fs|]; [|discriminate].
  destruct (stages_append _ _ _ _ _ _ H)
    as (ps & js & os & gs & _ & -> & Hos & Hgs & Hjs & _).
  unfold appended. cbn. rewrite !length_app, Hos, Hgs, Hjs.
  repeat split.
Qed.

(** Adding filters to the list.  When [create_query] composes [q1] from
    the filters [fs1], and the filters [fs2] compile to [ps2], then from
    [fs1 ++ fs2] it composes [q1] filtered by [ps2]: the joins, the
    ordering and the grouping are those of [q1].  Conversely, when
    [create_query] composes a query from [fs1 ++ fs2], it composes one
    from [fs1] alone and one from [fs2] alone. *)
Theorem more_filters session model fs1 fs2 sort group_by ignore :
  (forall q1 ps2,
      create_query sch session model (Some fs1) sort group_by ignore = Ok q1 ->
      Forall2 (fun f p => compile_filter sch model f = Ok p) fs2 ps2 ->
      create_query sch session model (Some (fs1 ++ fs2)%list) sort group_by
        ignore = Ok (QueryMethods.filter q1 ps2)) /\
  (forall q,
      create_query sch session model (Some (fs1 ++ fs2)%list) sort group_by
        ignore = Ok q ->
      exists q1 q2,
        create_query sch session model (Some fs1) sort group_by ignore
        = Ok q1 /\
        create_query sch session model (Some fs2) sort group_by ignore
        = Ok q2).
Proof.
  split.
  - intros q1 ps2 H1 H2.
    destruct (stages_append _ _ _ _ _ _ H1)
      as (ps1 & js & os & gs & Hps1 & -> & _ & _ & _ & Hall).
    rewrite (Hall (fs1 ++ fs2)%list (ps1 ++ ps2)%list).
    + rewrite filter_appended. unfold QueryMethods.filter, appended. cbn.
      rewrite app_assoc. reflexivity.
    + apply Forall2_app; assumption.
  - intros q H.
    destruct (stages_append _ _ _ _ _ _ H)
      as (ps & js & os & gs & Hps & _ & _ & _ & _ & Hall).
    apply Forall2_app_inv_l in Hps.
    destruct Hps as (ps1 & ps2 & Hps1 & Hps2 & _).
    eexists. eexists. split; apply Hall; eassumption.
Qed.


(** When the sort parameter is consulted.  With ordering suppressed the
    result of [create_query], error included, does not depend on the sort
    parameter, so a sort on an unknown field goes unnoticed; and an empty
    sort or group-by list is the same as none. *)
Theorem sort_consulted session model filters sort sort' group_by ignore :
  create_query sch session model filters sort group_by true
  = create_query sch session model filters sort' group_by true /\
  create_query sch session model filters (Some []) group_by ignore
  = create_query sch session model filters None group_by ignore /\
  create_query sch session model filters sort (Some []) ignore
  = create_query sch session model filters sort None ignore.
Proof. repeat split. Qed.

End Shape.

Lemma composed_query_shape_witness :
  q_entity TestModels.comments_by_author
  = q_entity (session_query TestModels.schema 0 "Comment") /\
  length (q_order_by TestModels.comments_by_author) = 0 + 2 /\
  length (q_group_by TestModels.comments_by_author) = 0 + 1 /\
  length (q_join TestModels.comments_by_author) = 0 + (1 + 1).
Proof.
  apply (@composed_query_shape TestModels.schema 0 "Comment" (Some [])
           (Some [("-", "author.name"); ("+", "id")]) (Some ["author.id"])
           false TestModels.comments_by_author).
  reflexivity.
Defined.

Lemma more_filters_witness :
  create_query TestModels.schema 0 "ArticleTag"
    (Some ([] ++ [TestModels.leaf "id" "gt" (JInt 1)])%list) None None false
  = Ok (QueryMethods.filter TestModels.article_tags
          [Binary OpGt (TestModels.column "ArticleTag" "id")
             (PJson (JInt 1))]).
Proof.
  apply (proj1 (@more_filters TestModels.schema 0 "ArticleTag" []
                  [TestModels.leaf "id" "gt" (JInt 1)] None None false)).
  - reflexivity.
  - constructor; [reflexivity|constructor].
Defined.


(** ** Splitting names *)

Section Splitting.

Lemma str_app_nil_r (s : string) : (s ++ "")%string = s.
Proof. induction s as [|c s IH]; cbn; [reflexivity|]. rewrite IH. reflexivity. Qed.

Lemma str_app_assoc (a b c : string) :
  ((a ++ b) ++ c)%string = (a ++ b ++ c)%string.
Proof. induction a as [|x a IH]; cbn; [reflexivity|]. rewrite IH. reflexivity. Qed.

Lemma str_length_app (a b : string) :
  String.length (a ++ b)%string = String.length a + String.length b.
Proof. induction a as [|x a IH]; cbn; [reflexivity|]. rewrite IH. reflexivity. Qed.

Lemma starts_with_app (p s : string) :
  Str.starts_with p s = true -> exists t, s = (p ++ t)%string.
Proof.
  revert s. induction p as [|a p IH]; intros s H.
  - exists s. reflexivity.
  - destruct s as [|b s]; cbn in H; [discriminate|].
    apply andb_true_iff in H. destruct H as [Hab Hp].
    apply Ascii.eqb_eq in Hab. subst b.
    destruct (IH s Hp) as [t ->]. exists t. reflexivity.
Qed.

Lemma split_go_skip (sep p t cur : string) :
  Str.split_go sep (String.length p) cur (p ++ t) = Str.split_go sep 0 cur t.
Proof.
  induction p as [|c p IH]; cbn [String.length append].
  - reflexivity.
  - cbn [Str.split_go]. exact IH.
Qed.

Lemma split_go_not_nil (sep : string) (s : string) :
  forall k cur, Str.split_go sep k cur s <> [].
Proof.
  induction s as [|c s IH]; intros k cur; cbn [Str.split_go].
  - discriminate.
  - destruct k as [|k]; [|apply IH].
    destruct (Str.starts_with sep (String c s)); [discriminate|apply IH].
Qed.

Lemma concat_cons (sep x : string) (l : list string) :
  l <> [] -> String.concat sep (x :: l) = (x ++ sep ++ String.concat sep l)%string.
Proof. destruct l; [contradiction|reflexivity]. Qed.

Lemma split_go_concat (c0 : ascii) (sep' : string) (n : nat) :
  forall s cur,
    String.length s <= n ->
    String.concat (String c0 sep') (Str.split_go (String c0 sep') 0 cur s)
    = (cur ++ s)%string.
Proof.
  induction n as [|n IH]; intros s cur Hlen.
  - destruct s; [|cbn in Hlen; lia]. cbn. rewrite str_app_nil_r.
    reflexivity.
  - destruct s as [|c s]; [cbn; rewrite str_app_nil_r; reflexivity|].
    cbn [Str.split_go].
    destruct (Str.starts_with (String c0 sep') (String c s)) eqn:Hsw.
    + destruct (starts_with_app _ _ Hsw) as [t Ht].
      cbn [append] in Ht. inversion Ht; subst c s. clear Ht.
      replace (String.length (String c0 sep') - 1)
        with (String.length sep') by (cbn [String.length]; lia).
      rewrite split_go_skip.
      rewrite concat_cons by apply split_go_not_nil.
      rewrite IH.
      * reflexivity.
      * cbn [String.length] in Hlen. rewrite str_length_app in Hlen. lia.
    + rewrite IH.
      * rewrite str_app_assoc. reflexivity.
      * cbn [String.length] in Hlen. lia.
Qed.

Lemma split_go_absent (sep : string) (s : string) :
  forall cur,
    Str.contains sep s = false ->
    Str.split_go sep 0 cur s = [(cur ++ s)%string].
Proof.
  induction s as [|c s IH]; intros cur H.
  - cbn. rewrite str_app_nil_r. reflexivity.
  - cbn [Str.contains] in H. apply orb_false_iff in H. destruct H as [Hsw Hc].
    cbn [Str.split_go]. rewrite Hsw. rewrite (IH _ Hc).
    rewrite str_app_assoc. reflexivity.
Qed.

Lemma split_go_present (c0 : ascii) (sep' : string) (s : string) :
  forall cur,
    Str.contains (String c0 sep') s = true ->
    2 <= length (Str.split_go (String c0 sep') 0 cur s).
Proof.
  induction s as [|c s IH]; intros cur H.
  - cbn in H. discriminate.
  - cbn [Str.contains] in H. cbn [Str.split_go].
    destruct (Str.starts_with (String c0 sep') (String c s)) eqn:Hsw.
    + cbn [length].
      pose proof (@split_go_not_nil (String c0 sep') s
                    (String.length (String c0 sep') - 1) "") as Hne.
      destruct (Str.split_go (String c0 sep') _ "" s); [contradiction|].
      cbn. lia.
    + cbn [orb] in H. apply IH. exact H.
Qed.

(** Splitting on a non-empty separator: joining the parts with the
    separator gives the string back; a string without the separator is
    its own single part, and a string with the separator has at least two
    parts.  So after the test ['__' in name] the unpacking of
    [name.split('__')] into two variables fails only for three parts or
    more. *)
Theorem split_parts (c0 : ascii) (sep' : string) (s : string) :
  String.concat (String c0 sep') (Str.split (String c0 sep') s) = s /\
  (Str.contains (String c0 sep') s = false ->
   Str.split (String c0 sep') s = [s]) /\
  (Str.contains (String c0 sep') s = true ->
   2 <= length (Str.split (String c0 sep') s)) /\
  (Str.contains (String c0 sep') s = true ->
   unpack2 (map JStr (Str.split (String c0 sep') s)) = Raise ValueError ->
   3 <= length (Str.split (String c0 sep') s)).
Proof.
  unfold Str.split. split; [|split; [|split]].
  - rewrite (@split_go_concat c0 sep' (String.length s) s "" (le_n _)).
    reflexivity.
  - intros H. rewrite (@split_go_absent (String c0 sep') s "" H).
    reflexivity.
  - intros H. apply split_go_present. exact H.
  - intros H Hu. pose proof (@split_go_present c0 sep' s "" H) as H2.
    destruct (Str.split_go (String c0 sep') 0 "" s) as [|a [|b [|c l]]];
      cbn in *; try lia. discriminate.
Qed.

End Splitting.

Lemma split_parts_witness :
  2 <= length (Str.split "__" "comments__content").
Proof.
  apply (proj1 (proj2 (proj2 (@split_parts "_" "_" "comments__content")))).
  reflexivity.
Defined.

(** ** Sorting and grouping through a relation *)

Section RelationPath.

Variable sch : Schema.



End RelationPath.


(** ** The keys that the parser reads *)

Section Keys.

Variable sch : Schema.

(** [from_dictionary] reads the keys ['or'], ['and'], ['name'], ['op'],
    ['field'] and ['val'] and no other: two dictionaries that agree on the
    presence of ['or'] and ['and'] and on the values of these six keys are
    parsed alike, so a key with another name (a misspelt ['val'], say) is
    ignored without an error, and the order of the keys does not
    matter. *)
Theorem parser_reads_six_keys model d d' :
  Dict.contains "or" d = Dict.contains "or" d' ->
  Dict.contains "and" d = Dict.contains "and" d' ->
  (forall k, In k ["or"; "and"; "name"; "op"; "field"; "val"] ->
             Dict.get d k = Dict.get d' k) ->
  from_dictionary sch model (JDict d) = from_dictionary sch model (JDict d').
Proof.
  intros Hor Hand Hget. rewrite !from_dictionary_eq.
  unfold from_dictionary_body. cbn [py_in py_get bind].
  rewrite Hor, Hand.
  rewrite !(Hget "or"), !(Hget "and"), !(Hget "name"), !(Hget "op"),
    !(Hget "field"), !(Hget "val") by (cbn; tauto).
  reflexivity.
Qed.

End Keys.

Lemma parser_reads_six_keys_witness :
  from_dictionary TestModels.schema "Person"
    (JDict [("name", JStr "age"); ("op", JStr "gt"); ("value", JInt 3)])
  = from_dictionary TestModels.schema "Person"
      (JDict [("op", JStr "gt"); ("name", JStr "age")]).
Proof.
  apply (@parser_reads_six_keys TestModels.schema "Person"
           [("name", JStr "age"); ("op", JStr "gt"); ("value", JInt 3)]
           [("op", JStr "gt"); ("name", JStr "age")]).
  - reflexivity.
  - reflexivity.
  - intros k Hk. cbn in Hk.
    repeat (destruct Hk as [<-|Hk]; [reflexivity|]). contradiction.
Defined.
